(** * Negotiation Agent: the phase engine of [app.py] and its HTTP routes

    A shallow embedding of the negotiation state machine
    ([brand_initial_offer], [handle_influencer_response],
    [brand_considers_counter], [handle_final_decision],
    [process_negotiation_step]) and of the routes that write to the
    in-memory session store [active_sessions] ([start_negotiation],
    [respond_to_negotiation], and the store effects of
    [respond_to_negotiation_stream] and [end_session]), followed by the
    properties checked against the specification.

    Conventions of the embedding:
    - a Python [str] holding user-facing text is a list of Unicode code
      points ([pystr]); identifiers the program itself produces (phase
      names, session ids, timestamps) are Rocq strings;
    - a Python [int] is [Z]; [int(budget * 1.15)] goes through IEEE-754
      binary64 exactly as the interpreter does it, using the Standard
      Library's executable specification [SpecFloat];
    - an exception is a value of [result]; the clock ([datetime.now()]) and
      [uuid.uuid4()] are explicit arguments of the routes;
    - the Unicode tables behind [str.lower], [str.title] and the regular
      expression class [\d] belong to the interpreter, not to [app.py]:
      they are the fields of the class [PyRuntime], together with the facts
      about them that hold in every Python 3;
    - [int] on a run of digits is the base-10 conversion under CPython's
      default limit on the length of the run
      ([sys.int_info.default_max_str_digits], 4300), which [app.py] never
      changes: a longer run raises [ValueError].  The same limit on
      [f"{n:,}"] is out of reach of the numbers a session can hold (a
      counter-offer has passed [int], a ceiling comes from a float) and is
      left out of [format_commas]. *)

From Stdlib Require Import ZArith Lia String Ascii List Bool DecimalString.
From Stdlib Require Import Floats.SpecFloat.
From stdpp Require Import base gmap strings list.

#[local] Open Scope Z_scope.

(** ** Python strings as lists of code points *)

Definition pystr := list Z.

Definition lit (s : string) : pystr :=
  map (fun a => Z.of_N (N_of_ascii a)) (list_ascii_of_string s).
Arguments lit : simpl never.

Definition rupee : Z := 8377.              (* U+20B9 *)
Definition brand_glyph : Z := 127970.      (* U+1F3E2 *)
Definition influencer_glyph : Z := 127917. (* U+1F3AD *)
Definition newline : Z := 10.

Definition is_ascii (c : Z) : Prop := 0 <= c < 128.

Definition ascii_lower (c : Z) : Z :=
  if (65 <=? c) && (c <=? 90) then c + 32 else c.

Definition ascii_decimal (c : Z) : option Z :=
  if (48 <=? c) && (c <=? 57) then Some (c - 48) else None.

(** Text made of ASCII and rupee signs. *)
Definition plain (c : Z) : Prop := is_ascii c \/ c = rupee.

(** The interpreter's Unicode services.  [lower_plain] and [decimal_ascii]
    say what they do on ASCII (the rupee sign has no case); [decimal_rupee]
    that the rupee sign is not a digit; [decimal_range] that a digit's value
    is a decimal digit. *)
Class PyRuntime := {
  str_lower : pystr -> pystr;
  str_title : pystr -> pystr;
  decimal : Z -> option Z;
  lower_plain : forall s, Forall plain s -> str_lower s = map ascii_lower s;
  decimal_ascii : forall c, is_ascii c -> decimal c = ascii_decimal c;
  decimal_rupee : decimal rupee = None;
  decimal_range : forall c d, decimal c = Some d -> 0 <= d < 10
}.

(** [needle in hay] *)
Fixpoint starts_with (needle hay : pystr) : bool :=
  match needle, hay with
  | [], _ => true
  | _ :: _, [] => false
  | a :: n', b :: h' => (a =? b) && starts_with n' h'
  end.

Fixpoint contains (needle hay : pystr) : bool :=
  starts_with needle hay ||
  match hay with
  | [] => false
  | _ :: h' => contains needle h'
  end.

(** [s.replace("_", " ")] *)
Definition replace_underscore (s : pystr) : pystr :=
  map (fun c => if c =? 95 then 32 else c) s.

(** [f"{n:,}"]: decimal digits in groups of three *)
Fixpoint uint_chars (u : Decimal.uint) : pystr :=
  match u with
  | Decimal.Nil => []
  | Decimal.D0 u => 48 :: uint_chars u
  | Decimal.D1 u => 49 :: uint_chars u
  | Decimal.D2 u => 50 :: uint_chars u
  | Decimal.D3 u => 51 :: uint_chars u
  | Decimal.D4 u => 52 :: uint_chars u
  | Decimal.D5 u => 53 :: uint_chars u
  | Decimal.D6 u => 54 :: uint_chars u
  | Decimal.D7 u => 55 :: uint_chars u
  | Decimal.D8 u => 56 :: uint_chars u
  | Decimal.D9 u => 57 :: uint_chars u
  end.

Fixpoint group3 (k : nat) (ds : pystr) : pystr :=
  match ds with
  | [] => []
  | d :: ds' =>
      match k with
      | O => 44 :: d :: group3 2 ds'
      | S k' => d :: group3 k' ds'
      end
  end.

Definition format_commas (n : Z) : pystr :=
  let body := rev (group3 3 (rev (uint_chars (N.to_uint (Z.abs_N n))))) in
  if n <? 0 then 45 :: body else body.

(** ** Exceptions *)

Inductive exn :=
| ValueError (msg : string)
| TypeError (msg : string)
| AttributeError (msg : string)
| OverflowError (msg : string).

(** [str(e)] *)
Definition str_exn (e : exn) : string :=
  match e with
  | ValueError m | TypeError m | AttributeError m | OverflowError m => m
  end.

Inductive result (A : Type) :=
| Ok (a : A)
| Raise (e : exn).
Arguments Ok {A} a.
Arguments Raise {A} e.

Definition bind {A B} (r : result A) (k : A -> result B) : result B :=
  match r with
  | Ok a => k a
  | Raise e => Raise e
  end.

Notation "'let*' x ':=' r 'in' k" := (bind r (fun x => k))
  (at level 10, x name, r at level 100, k at level 200).

(** ** The limit on [int(str)]

    [sys.int_info.default_max_str_digits]: the default of
    [sys.get_int_max_str_digits()], which the program leaves as it is. *)
Definition max_str_digits : Z := 4300.

(** [str(e)] of the [ValueError] that [int] raises for a string of
    [digits] digits, more than the limit. *)
Definition int_limit_message (digits : Z) : string :=
  ("Exceeds the limit (4300 digits) for integer string conversion: value has "
   ++ NilEmpty.string_of_uint (N.to_uint (Z.to_N digits))
   ++ " digits; use sys.set_int_max_str_digits() to increase the limit")%string.

(** ** [int(budget * 1.15)] in binary64 *)

Module Float64.

Definition prec : Z := 53.
Definition emax : Z := 1024.

(** [float(z)] as [int * float] performs it: correctly rounded, and
    [OverflowError] when the rounded value is out of range. *)
Definition of_int (z : Z) : result spec_float :=
  match binary_normalize prec emax z 0 false with
  | S754_infinity _ => Raise (OverflowError "int too large to convert to float")
  | f => Ok f
  end.

(** The literal [1.15]: the binary64 number nearest to 23/20. *)
Definition lit_1_15 : spec_float := S754_finite false 5179139571476070 (-52).

Definition mul : spec_float -> spec_float -> spec_float := SFmul prec emax.

(** [int(f)]: truncation toward zero. *)
Definition to_int (f : spec_float) : result Z :=
  match f with
  | S754_zero _ => Ok 0
  | S754_finite s m e =>
      let t := Z.shiftl (Zpos m) e in Ok (if s then - t else t)
  | S754_infinity _ => Raise (OverflowError "cannot convert float infinity to integer")
  | S754_nan => Raise (ValueError "cannot convert float NaN to integer")
  end.

End Float64.

(** [int(budget * 1.15)] *)
Definition stretch_ceiling (budget : Z) : result Z :=
  let* f := Float64.of_int budget in
  Float64.to_int (Float64.mul f Float64.lit_1_15).

(** ** The session state

    [NegotiationState] with every key of the [TypedDict] present.  A field
    read with [state.get(key)] and tested for [None] is an [option]; the key
    ["is_complete"], which is not part of the [TypedDict], appears once a
    handler's result that carries it has been merged. *)

Record NegotiationState := {
  messages : list pystr;
  budget : option Z;
  campaign_type : option pystr;
  duration : option pystr;
  brand_offer : option Z;
  influencer_offer : option Z;
  agreed_price : option Z;
  negotiation_phase : string;
  negotiation_rounds : Z;
  user_input : pystr;
  session_id : string;
  created_at : string;
  last_activity : string;
  is_complete : option bool
}.

(** One key/value pair of the dict a handler returns. *)
Inductive item :=
| k_messages (v : list pystr)
| k_brand_offer (v : Z)
| k_influencer_offer (v : Z)
| k_agreed_price (v : option Z)
| k_negotiation_phase (v : string)
| k_negotiation_rounds (v : Z)
| k_bot_response (v : pystr)
| k_options (v : list pystr)
| k_is_complete (v : bool)
| k_last_activity (v : string).

(** [state[key] = value] *)
Definition set_item (st : NegotiationState) (it : item) : NegotiationState :=
  let '{| messages := ms; budget := b; campaign_type := ct; duration := du;
          brand_offer := bo; influencer_offer := io; agreed_price := ap;
          negotiation_phase := ph; negotiation_rounds := rd; user_input := ui;
          session_id := sid; created_at := ca; last_activity := la;
          is_complete := ic |} := st in
  match it with
  | k_messages v =>
      Build_NegotiationState v b ct du bo io ap ph rd ui sid ca la ic
  | k_brand_offer v =>
      Build_NegotiationState ms b ct du (Some v) io ap ph rd ui sid ca la ic
  | k_influencer_offer v =>
      Build_NegotiationState ms b ct du bo (Some v) ap ph rd ui sid ca la ic
  | k_agreed_price v =>
      Build_NegotiationState ms b ct du bo io v ph rd ui sid ca la ic
  | k_negotiation_phase v =>
      Build_NegotiationState ms b ct du bo io ap v rd ui sid ca la ic
  | k_negotiation_rounds v =>
      Build_NegotiationState ms b ct du bo io ap ph v ui sid ca la ic
  | k_is_complete v =>
      Build_NegotiationState ms b ct du bo io ap ph rd ui sid ca la (Some v)
  | k_last_activity v =>
      Build_NegotiationState ms b ct du bo io ap ph rd ui sid ca v ic
  | k_bot_response _ | k_options _ => st
  end.

Definition set_user_input (v : pystr) (st : NegotiationState) : NegotiationState :=
  {| messages := messages st; budget := budget st;
     campaign_type := campaign_type st; duration := duration st;
     brand_offer := brand_offer st; influencer_offer := influencer_offer st;
     agreed_price := agreed_price st; negotiation_phase := negotiation_phase st;
     negotiation_rounds := negotiation_rounds st; user_input := v;
     session_id := session_id st; created_at := created_at st;
     last_activity := last_activity st; is_complete := is_complete st |}.

(** The loop of both routes:
    [for key, value in result.items():
       if key != "bot_response" and key != "options": state[key] = value] *)
Definition keeps (it : item) : bool :=
  match it with
  | k_bot_response _ | k_options _ => false
  | _ => true
  end.

Definition merge_result (st : NegotiationState) (res : list item) : NegotiationState :=
  fold_left (fun s it => if keeps it then set_item s it else s) res st.

(** [result.get("bot_response", "")], [result.get("options", [])],
    [result.get("is_complete", False)] *)
Fixpoint get_bot_response (res : list item) : pystr :=
  match res with
  | [] => []
  | k_bot_response v :: _ => v
  | _ :: res' => get_bot_response res'
  end.

Fixpoint get_options (res : list item) : list pystr :=
  match res with
  | [] => []
  | k_options v :: _ => v
  | _ :: res' => get_options res'
  end.

Fixpoint get_is_complete (res : list item) : bool :=
  match res with
  | [] => false
  | k_is_complete v :: _ => v
  | _ :: res' => get_is_complete res'
  end.

(** [not x] for an optional integer: [None] and [0] are falsy. *)
Definition falsy (x : option Z) : bool :=
  match x with
  | None => true
  | Some n => n =? 0
  end.

(** [f"{x:,}"], which [None] does not support. *)
Definition fmt (x : option Z) : result pystr :=
  match x with
  | Some n => Ok (format_commas n)
  | None => Raise (TypeError "unsupported format string passed to NoneType.__format__")
  end.

(** [x.replace("_", " ")], which [None] does not have. *)
Definition replace_ (x : option pystr) : result pystr :=
  match x with
  | Some s => Ok (replace_underscore s)
  | None => Raise (AttributeError "'NoneType' object has no attribute 'replace'")
  end.

(** ** The phase handlers *)

Section Engine.

Context {RT : PyRuntime}.

Definition is_digit (c : Z) : bool :=
  match decimal c with
  | Some _ => true
  | None => false
  end.

(** What a greedy [\d+] consumes at the head of [s]; empty when [s] does
    not start with a digit. *)
Fixpoint digit_run (s : pystr) : pystr :=
  match s with
  | c :: s' => if is_digit c then c :: digit_run s' else []
  | [] => []
  end.

Definition nonempty (g : pystr) : option pystr :=
  match g with
  | [] => None
  | _ :: _ => Some g
  end.

(** Group 1 of the pattern [r'₹?(\d+)'] anchored at the head of [s]: the
    optional rupee sign is tried first and given back when no digit
    follows it. *)
Definition match_price_at (s : pystr) : option pystr :=
  match s with
  | c :: s' =>
      if c =? rupee then
        match nonempty (digit_run s') with
        | Some g => Some g
        | None => nonempty (digit_run s)
        end
      else nonempty (digit_run s)
  | [] => None
  end.

(** Group 1 of [re.search(r'₹?(\d+)', s)]: the leftmost position where
    the pattern matches. *)
Fixpoint search_price (s : pystr) : option pystr :=
  match match_price_at s with
  | Some g => Some g
  | None =>
      match s with
      | [] => None
      | _ :: s' => search_price s'
      end
  end.

(** The base-10 value of a string of decimal digits. *)
Definition digits_value (g : pystr) : Z :=
  fold_left (fun acc c => 10 * acc + default 0 (decimal c)) g 0.

(** [int(g)] for a string of decimal digits: the interpreter counts the
    digits, leading zeros included, and raises when there are more than
    [max_str_digits] of them. *)
Definition int_of_digits (g : pystr) : result Z :=
  let digits := Z.of_nat (length g) in
  if max_str_digits <? digits
  then Raise (ValueError (int_limit_message digits))
  else Ok (digits_value g).

(** ["accept" in user_input.lower() or "yes" in user_input.lower()] *)
Definition says_accept (user_input : pystr) : bool :=
  contains (lit "accept") (str_lower user_input)
  || contains (lit "yes") (str_lower user_input).

(** [any(word in user_input.lower() for word in [...])] *)
Definition asks_details (user_input : pystr) : bool :=
  existsb (fun word => contains word (str_lower user_input))
    [lit "campaign"; lit "what"; lit "about"; lit "details"; lit "?"].

Definition brand_initial_offer (now : string) (state : NegotiationState)
  : result (list item) :=
  match budget state with
  | None => Raise (ValueError "Missing budget in state")
  | Some budget =>
      if budget =? 0 then Raise (ValueError "Missing budget in state") else
      let* campaign_replaced := replace_ (campaign_type state) in
      let campaign_display := str_title campaign_replaced in
      let* duration_replaced := replace_ (duration state) in
      let duration_display := str_title duration_replaced in
      let amount := format_commas budget in
      let response :=
        brand_glyph :: lit " Brand: Hello! We're excited to work with you on our "
        ++ campaign_display ++ lit " campaign." ++ newline
        :: brand_glyph :: lit " Brand: This is a " ++ duration_display
        ++ lit " campaign, and our budget is " ++ rupee :: amount ++ lit "."
        ++ newline
        :: brand_glyph :: lit " Brand: What are your thoughts on this collaboration?" in
      Ok [ k_messages [lit "Brand offers " ++ rupee :: amount ++ lit " for "
                       ++ campaign_display ++ lit " campaign (" ++ duration_display
                       ++ lit ")"];
           k_brand_offer budget;
           k_negotiation_phase "waiting_for_influencer_response";
           k_negotiation_rounds (negotiation_rounds state + 1);
           k_bot_response response;
           k_options [lit "Accept the offer"; lit "Counter with your price";
                      lit "Ask about campaign details"];
           k_last_activity now ]
  end.

Definition handle_influencer_response (now : string) (state : NegotiationState)
  : result (list item) :=
  let brand_offer := brand_offer state in
  let user_input := user_input state in
  let rounds := negotiation_rounds state in
  if says_accept user_input then
    let* amount := fmt brand_offer in
    let response :=
      influencer_glyph :: lit " Influencer: I accept your offer of "
      ++ rupee :: amount ++ lit "!" ++ newline
      :: brand_glyph :: lit " Brand: Excellent! We have a deal!" in
    Ok [ k_messages [lit "Influencer accepts " ++ rupee :: amount];
         k_agreed_price brand_offer;
         k_negotiation_phase "completed";
         k_negotiation_rounds (rounds + 1);
         k_bot_response response;
         k_is_complete true;
         k_last_activity now ]
  else
  match search_price user_input with
  | Some group1 =>
      let* counter_offer := int_of_digits group1 in
      let amount := format_commas counter_offer in
      let response :=
        influencer_glyph :: lit " Influencer: I was thinking more along the lines of "
        ++ rupee :: amount ++ lit "." ++ newline
        :: brand_glyph :: lit " Brand: Let me consider your offer..." in
      Ok [ k_messages [lit "Influencer counters with " ++ rupee :: amount];
           k_influencer_offer counter_offer;
           k_negotiation_phase "brand_considering";
           k_negotiation_rounds (rounds + 1);
           k_bot_response response;
           k_last_activity now ]
  | None =>
      if asks_details user_input then
        let* campaign_type := replace_ (campaign_type state) in
        let* duration := replace_ (duration state) in
        let* amount := fmt brand_offer in
        let response :=
          brand_glyph :: lit " Brand: This is a " ++ campaign_type
          ++ lit " campaign for our new product launch." ++ newline
          :: brand_glyph :: lit " Brand: Duration: " ++ duration
          ++ lit ", with authentic content in your style." ++ newline
          :: brand_glyph :: lit " Brand: We need 3-5 posts showcasing our product naturally."
          ++ newline
          :: brand_glyph :: lit " Brand: So, what do you think about our offer of "
          ++ rupee :: amount ++ lit "?" in
        Ok [ k_messages [lit "Brand explains campaign details"];
             k_negotiation_phase "waiting_for_decision";
             k_negotiation_rounds (rounds + 1);
             k_bot_response response;
             k_options [lit "Accept " ++ rupee :: amount;
                        lit "Make counter-offer"; lit "Need more details"];
             k_last_activity now ]
      else
        let* amount := fmt brand_offer in
        let response :=
          brand_glyph :: lit " Brand: I'd like to understand your position better. Are you interested in accepting "
          ++ rupee :: amount ++ lit ", or do you have a different rate in mind?" in
        Ok [ k_messages [lit "Brand asks for clarification"];
             k_negotiation_phase "waiting_for_decision";
             k_negotiation_rounds (rounds + 1);
             k_bot_response response;
             k_options [lit "Accept " ++ rupee :: amount; lit "Make counter-offer"];
             k_last_activity now ]
  end.

Definition brand_considers_counter (now : string) (state : NegotiationState)
  : result (list item) :=
  let rounds := negotiation_rounds state in
  (* [if not influencer_offer or not budget]: either one [None] or [0] *)
  match influencer_offer state, budget state with
  | Some influencer_offer, Some budget =>
      if (influencer_offer =? 0) || (budget =? 0)
      then Ok [ k_negotiation_phase "error" ] else
      let* max_budget := stretch_ceiling budget in
      let amount := format_commas influencer_offer in
      if influencer_offer <=? budget then
        let response :=
          brand_glyph :: lit " Brand: " ++ rupee :: amount
          ++ lit " works perfectly for us! Let's proceed with the collaboration." in
        Ok [ k_messages [lit "Brand accepts " ++ rupee :: amount];
             k_agreed_price (Some influencer_offer);
             k_negotiation_phase "completed";
             k_negotiation_rounds (rounds + 1);
             k_bot_response response;
             k_is_complete true;
             k_last_activity now ]
      else if influencer_offer <=? max_budget then
        let response :=
          brand_glyph :: lit " Brand: " ++ rupee :: amount
          ++ lit " is a bit higher than our initial budget, but we really like your content. We can agree to "
          ++ rupee :: amount ++ lit "!" in
        Ok [ k_messages [lit "Brand accepts " ++ rupee :: amount];
             k_agreed_price (Some influencer_offer);
             k_negotiation_phase "completed";
             k_negotiation_rounds (rounds + 1);
             k_bot_response response;
             k_is_complete true;
             k_last_activity now ]
      else
        let final_offer := max_budget in
        let final_amount := format_commas final_offer in
        let response :=
          brand_glyph :: lit " Brand: " ++ rupee :: amount
          ++ lit " is beyond our current budget. The highest we can go is "
          ++ rupee :: final_amount ++ lit ". This is our final offer." in
        Ok [ k_messages [lit "Brand's final offer: " ++ rupee :: final_amount];
             k_brand_offer final_offer;
             k_negotiation_phase "final_decision";
             k_negotiation_rounds (rounds + 1);
             k_bot_response response;
             k_options [lit "Accept final offer"; lit "Decline offer"];
             k_last_activity now ]
  | _, _ => Ok [ k_negotiation_phase "error" ]
  end.

Definition handle_final_decision (now : string) (state : NegotiationState)
  : result (list item) :=
  let final_offer := brand_offer state in
  let user_input := user_input state in
  let rounds := negotiation_rounds state in
  if says_accept user_input then
    let* amount := fmt final_offer in
    let response :=
      influencer_glyph :: lit " Influencer: Yes, I'll accept " ++ rupee :: amount
      ++ lit "!" ++ newline
      :: brand_glyph :: lit " Brand: Excellent! We have a deal at "
      ++ rupee :: amount ++ lit "!" in
    Ok [ k_messages [lit "Influencer accepts final offer of " ++ rupee :: amount];
         k_agreed_price final_offer;
         k_negotiation_phase "completed";
         k_negotiation_rounds (rounds + 1);
         k_bot_response response;
         k_is_complete true;
         k_last_activity now ]
  else
    let* amount := fmt final_offer in
    let response :=
      influencer_glyph :: lit " Influencer: I appreciate the offer, but I can't accept "
      ++ rupee :: amount ++ lit "." ++ newline
      :: brand_glyph :: lit " Brand: We understand. Unfortunately, we can't go higher. Thanks for considering!" in
    Ok [ k_messages [lit "Negotiation failed - no agreement reached"];
         k_agreed_price None;
         k_negotiation_phase "failed";
         k_negotiation_rounds (rounds + 1);
         k_bot_response response;
         k_is_complete true;
         k_last_activity now ].

Definition generic_failure : pystr := lit "Something went wrong. Please start over.".

(** One step of the state machine.  [now] is what [datetime.now().isoformat()]
    returns inside the handler. *)
Definition process_negotiation_step (now : string) (state : NegotiationState)
  : result (list item) :=
  let phase := negotiation_phase state in
  if String.eqb phase "initial" then brand_initial_offer now state
  else if String.eqb phase "waiting_for_influencer_response"
          || String.eqb phase "waiting_for_decision"
  then handle_influencer_response now state
  else if String.eqb phase "brand_considering" then brand_considers_counter now state
  else if String.eqb phase "final_decision" then handle_final_decision now state
  else Ok [ k_negotiation_phase "error"; k_bot_response generic_failure ].

End Engine.

(** ** The routes over [active_sessions] *)

(** Request bodies.  [UserResponse.current_state] is accepted and never read. *)
Record NegotiationStart := {
  req_budget : Z;
  req_campaign_type : option pystr;
  req_duration : option pystr
}.

Record UserResponse := {
  req_session_id : string;
  req_message : pystr
}.

(** An entry of [active_sessions]. *)
Record session := {
  state : NegotiationState;
  entry_created_at : string
}.

Record reply := {
  reply_session_id : string;
  reply_type : string;
  reply_content : pystr;
  reply_options : list pystr;
  reply_state : NegotiationState;
  reply_is_complete : bool
}.

Inductive http_result :=
| Reply (r : reply)
| HTTPException (status_code : Z) (detail : string).

Section Routes.

Context {RT : PyRuntime}.

(** The state [/start-negotiation] builds before the first step.  [sid] is
    the fresh [uuid4]; [t_created] and [t_last] are the two readings of the
    clock in the dict literal. *)
Definition initial_state (sid t_created t_last : string)
    (request : NegotiationStart) : NegotiationState :=
  {| messages := [];
     budget := Some (req_budget request);
     campaign_type := req_campaign_type request;
     duration := req_duration request;
     brand_offer := Some 0;
     influencer_offer := Some 0;
     agreed_price := None;
     negotiation_phase := "initial";
     negotiation_rounds := 0;
     user_input := [];
     session_id := sid;
     created_at := t_created;
     last_activity := t_last;
     is_complete := None |}.

(** [POST /start-negotiation].  [t_step] is the clock reading inside the
    handler, [t_entry] the one stored with the session. *)
Definition start_negotiation (sid t_created t_last t_step t_entry : string)
    (request : NegotiationStart) (active_sessions : gmap string session)
  : gmap string session * http_result :=
  let initial_state := initial_state sid t_created t_last request in
  match process_negotiation_step t_step initial_state with
  | Ok result =>
      let initial_state := merge_result initial_state result in
      (<[sid := {| state := initial_state; entry_created_at := t_entry |}]>
         active_sessions,
       Reply {| reply_session_id := sid;
                reply_type := "message";
                reply_content := get_bot_response result;
                reply_options := get_options result;
                reply_state := initial_state;
                reply_is_complete := get_is_complete result |})
  | Raise e => (active_sessions, HTTPException 500 (str_exn e))
  end.

(** What [/respond] does to the state dict it finds in the store.  The
    dict is updated in place: the two assignments before the [try] are
    in the store whether or not the step raises. *)
Definition record_input (t_input : string) (message : pystr)
    (current_state : NegotiationState) : NegotiationState :=
  set_item (set_user_input message current_state) (k_last_activity t_input).

Definition respond_state (t_input t_step : string) (message : pystr)
    (current_state : NegotiationState) : NegotiationState :=
  let current_state := record_input t_input message current_state in
  match process_negotiation_step t_step current_state with
  | Ok result => merge_result current_state result
  | Raise _ => current_state
  end.

(** [POST /respond].  [t_input] and [t_step] are the clock readings before
    the [try] and inside the handler. *)
Definition respond_to_negotiation (t_input t_step : string)
    (request : UserResponse) (active_sessions : gmap string session)
  : gmap string session * http_result :=
  match active_sessions !! req_session_id request with
  | None => (active_sessions, HTTPException 404 "Session not found")
  | Some session =>
      let current_state :=
        record_input t_input (req_message request) (state session) in
      let stored st :=
        <[req_session_id request :=
            {| state := st; entry_created_at := entry_created_at session |}]>
          active_sessions in
      match process_negotiation_step t_step current_state with
      | Ok result =>
          let current_state := merge_result current_state result in
          (stored current_state,
           Reply {| reply_session_id := req_session_id request;
                    reply_type := "message";
                    reply_content := get_bot_response result;
                    reply_options := get_options result;
                    reply_state := current_state;
                    reply_is_complete := get_is_complete result |})
      | Raise e => (stored current_state, HTTPException 500 (str_exn e))
      end
  end.

(** [POST /respond-stream], as far as the store is concerned, in the two
    parts the event loop runs one after the other: the route body records
    the input in the stored dict, and the generator, when the reply is
    sent, processes one step on that same dict and merges the result (an
    exception becomes an error frame of the stream).  The frames themselves
    are not modelled.  A session deleted in between is no longer in the
    store, which the generator then leaves alone. *)
Definition respond_stream_record (t_input : string) (request : UserResponse)
    (active_sessions : gmap string session) : gmap string session :=
  match active_sessions !! req_session_id request with
  | None => active_sessions
  | Some session =>
      <[req_session_id request :=
          {| state := record_input t_input (req_message request) (state session);
             entry_created_at := entry_created_at session |}]> active_sessions
  end.

Definition respond_stream_generate (t_step : string) (sid : string)
    (active_sessions : gmap string session) : gmap string session :=
  match active_sessions !! sid with
  | None => active_sessions
  | Some session =>
      match process_negotiation_step t_step (state session) with
      | Ok result =>
          <[sid := {| state := merge_result (state session) result;
                      entry_created_at := entry_created_at session |}]>
            active_sessions
      | Raise _ => active_sessions
      end
  end.

(** [DELETE /session/{session_id}] *)
Definition end_session (sid : string) (active_sessions : gmap string session)
  : gmap string session * (string + Z * string) :=
  match active_sessions !! sid with
  | Some _ => (delete sid active_sessions, inl "Session ended successfully")
  | None => (active_sessions, inr (404, "Session not found"))
  end.

(** The stores the service can be in: empty at process start, then changed
    by the routes that write to it. *)
Inductive reachable : gmap string session -> Prop :=
| reach_empty : reachable ∅
| reach_start sid t_created t_last t_step t_entry request sessions :
    reachable sessions ->
    reachable (start_negotiation sid t_created t_last t_step t_entry
                 request sessions).1
| reach_respond t_input t_step request sessions :
    reachable sessions ->
    reachable (respond_to_negotiation t_input t_step request sessions).1
| reach_stream_record t_input request sessions :
    reachable sessions ->
    reachable (respond_stream_record t_input request sessions)
| reach_stream_generate t_step sid sessions :
    reachable sessions ->
    reachable (respond_stream_generate t_step sid sessions)
| reach_end sid sessions :
    reachable sessions ->
    reachable (end_session sid sessions).1.

(** One conversation: the state [/start-negotiation] stores, then one
    [/respond] per client turn. *)
Record turn := {
  turn_t_input : string;
  turn_t_step : string;
  turn_message : pystr
}.

Definition play (st : NegotiationState) (turns : list turn) : NegotiationState :=
  fold_left
    (fun s t => respond_state (turn_t_input t) (turn_t_step t) (turn_message t) s)
    turns st.

End Routes.

(** ** A runtime to evaluate with

    On ASCII text every Python 3 behaves like this instance; it leaves
    other code points alone. *)

Fixpoint ascii_title_from (prev_cased : bool) (s : pystr) : pystr :=
  match s with
  | [] => []
  | c :: s' =>
      if ((65 <=? c) && (c <=? 90)) || ((97 <=? c) && (c <=? 122)) then
        (if prev_cased then ascii_lower c
         else if (97 <=? c) && (c <=? 122) then c - 32 else c)
        :: ascii_title_from true s'
      else c :: ascii_title_from false s'
  end.

#[export] Instance ascii_runtime : PyRuntime.
Proof.
  refine {| str_lower := map ascii_lower;
            str_title := ascii_title_from false;
            decimal := ascii_decimal;
            lower_plain := fun s _ => eq_refl;
            decimal_ascii := fun c _ => eq_refl;
            decimal_rupee := eq_refl;
            decimal_range := _ |}.
  intros c d. unfold ascii_decimal.
  destruct ((48 <=? c) && (c <=? 57)) eqn:E; [|discriminate].
  intros [= <-]. apply andb_prop in E as [? ?]. lia.
Defined.

(** ** Vocabulary of the properties *)

(** The fields the specification calls immutable. *)
Definition same_identity (st st' : NegotiationState) : Prop :=
  budget st' = budget st /\ campaign_type st' = campaign_type st
  /\ duration st' = duration st /\ session_id st' = session_id st.

(** The phases [process_negotiation_step] has a handler for, and those a
    handler can leave a session waiting in. *)
Definition handled (ph : string) : Prop :=
  ph = "initial" \/ ph = "waiting_for_influencer_response"
  \/ ph = "waiting_for_decision" \/ ph = "brand_considering"
  \/ ph = "final_decision".

Definition open_phase (ph : string) : Prop :=
  ph = "waiting_for_influencer_response" \/ ph = "waiting_for_decision"
  \/ ph = "brand_considering" \/ ph = "final_decision".

Definition waiting (ph : string) : Prop :=
  ph = "waiting_for_influencer_response" \/ ph = "waiting_for_decision".

Definition terminal (ph : string) : Prop :=
  ph = "completed" \/ ph = "failed" \/ ph = "error".

(** The two shapes a merged result has: a transition made by a handler, and
    the bare move to "error". *)
Definition step_shape (now : string) (st st' : NegotiationState) : Prop :=
  negotiation_rounds st' = negotiation_rounds st + 1
  /\ last_activity st' = now
  /\ ((negotiation_phase st' = "completed" /\ agreed_price st' <> None)
      \/ (negotiation_phase st' = "failed" /\ agreed_price st' = None)
      \/ (open_phase (negotiation_phase st')
          /\ agreed_price st' = agreed_price st)).

Definition error_shape (st st' : NegotiationState) : Prop :=
  negotiation_phase st' = "error"
  /\ negotiation_rounds st' = negotiation_rounds st
  /\ agreed_price st' = agreed_price st
  /\ last_activity st' = last_activity st
  /\ brand_offer st' = brand_offer st
  /\ influencer_offer st' = influencer_offer st
  /\ messages st' = messages st.

(** The invariant as the specification words it, and the one the service
    keeps. *)
Definition price_iff_completed (st : NegotiationState) : Prop :=
  agreed_price st <> None <-> negotiation_phase st = "completed".

Definition price_invariant (st : NegotiationState) : Prop :=
  (negotiation_phase st = "completed" -> agreed_price st <> None)
  /\ (agreed_price st <> None ->
      negotiation_phase st = "completed" \/ negotiation_phase st = "error").

(** A client turn advances the session when its step neither raises nor
    ends in "error". *)
Definition advances {RT : PyRuntime} (t_input t_step : string) (message : pystr)
    (st : NegotiationState) : bool :=
  let current_state := record_input t_input message st in
  match process_negotiation_step t_step current_state with
  | Ok result =>
      negb (String.eqb (negotiation_phase (merge_result current_state result)) "error")
  | Raise _ => false
  end.

Fixpoint advancing {RT : PyRuntime} (st : NegotiationState) (turns : list turn)
  : nat :=
  match turns with
  | [] => 0
  | t :: turns' =>
      ((if advances (turn_t_input t) (turn_t_step t) (turn_message t) st
        then 1 else 0)
       + advancing
           (respond_state (turn_t_input t) (turn_t_step t) (turn_message t) st)
           turns')%nat
  end.

(** The numeric extraction rule in the specification's words: skip to the
    first decimal digit, take the digits that follow it without a gap, and
    read them in base 10. *)
Fixpoint first_digit_run {RT : PyRuntime} (s : pystr) : pystr :=
  match s with
  | [] => []
  | c :: s' => if is_digit c then digit_run s else first_digit_run s'
  end.

Fixpoint base10 (ds : list Z) : Z :=
  match ds with
  | [] => 0
  | d :: ds' => d * 10 ^ Z.of_nat (length ds') + base10 ds'
  end.

Definition digit_values {RT : PyRuntime} (g : pystr) : list Z :=
  map (fun c => default 0 (decimal c)) g.

(** The number of digits in the first run of digits of a message, and
    whether a waiting session's step hands [int] more digits than the
    interpreter converts: the message has no accept keyword and its first
    run of digits is longer than [max_str_digits]. *)
Definition run_digits {RT : PyRuntime} (s : pystr) : Z :=
  Z.of_nat (length (first_digit_run s)).



Definition plainb (c : Z) : bool :=
  ((0 <=? c) && (c <? 128)) || (c =? rupee).

(** The engine fields of a session, as a tuple. *)
Definition engine_fields (st : NegotiationState) :=
  (negotiation_phase st, negotiation_rounds st, brand_offer st,
   influencer_offer st, agreed_price st, messages st).

(** ** A conversation to evaluate

    Session "s1" with the default campaign; every clock reading of the
    opening request is "t0", those of a reply "t1" and "t2". *)
Definition demo_start (budget : Z) : NegotiationStart :=
  {| req_budget := budget;
     req_campaign_type := Some (lit "social_media");
     req_duration := Some (lit "2_weeks") |}.

Definition demo_open (budget : Z) : gmap string session :=
  (start_negotiation "s1" "t0" "t0" "t0" "t0" (demo_start budget) ∅).1.

Definition demo_say (message : pystr) (sessions : gmap string session)
  : gmap string session :=
  (respond_to_negotiation "t1" "t2"
     {| req_session_id := "s1"; req_message := message |} sessions).1.

Definition demo_state (sessions : gmap string session) : option NegotiationState :=
  state <$> sessions !! "s1".

(** A session waiting in [phase] with the given numbers and input. *)
Definition demo_session (phase : string) (budget brand influencer : option Z)
    (input : pystr) : NegotiationState :=
  {| messages := [];
     budget := budget;
     campaign_type := Some (lit "social_media");
     duration := Some (lit "2_weeks");
     brand_offer := brand;
     influencer_offer := influencer;
     agreed_price := None;
     negotiation_phase := phase;
     negotiation_rounds := 2;
     user_input := input;
     session_id := "s1";
     created_at := "t0";
     last_activity := "t1";
     is_complete := None |}.


(** ** The remaining routes, and [determine_next_step] *)

(** [determine_next_step]: the name of the step that comes next.  Nothing
    in [app.py] calls it. *)
Definition determine_next_step (state : NegotiationState) : string :=
  let phase := negotiation_phase state in
  if String.eqb phase "waiting_for_influencer_response"
     || String.eqb phase "waiting_for_decision"
  then "handle_response"
  else if String.eqb phase "brand_considering" then "brand_considers"
  else if String.eqb phase "final_decision" then "final_choice"
  else "handle_response".

(** [GET /session/{session_id}]: the id and the stored state, or 404. *)
Definition get_session_state (session_id : string)
    (active_sessions : gmap string session)
  : string * NegotiationState + Z * string :=
  match active_sessions !! session_id with
  | Some session => inl (session_id, state session)
  | None => inr (404, "Session not found")
  end.

(** [GET /]: the health message and [len(active_sessions)]. *)
Definition root (active_sessions : gmap string session) : string * Z :=
  ("Negotiation Agent API is running", Z.of_nat (size active_sessions)).

(** One entry of [GET /sessions]. *)
Record session_info := {
  info_session_id : string;
  info_created_at : string;
  info_budget : option Z;
  info_status : string;
  info_last_activity : string;
  info_rounds : Z
}.

Definition session_info_of (session_id : string) (session_data : session)
  : session_info :=
  {| info_session_id := session_id;
     info_created_at := entry_created_at session_data;
     info_budget := budget (state session_data);
     info_status := negotiation_phase (state session_data);
     info_last_activity := last_activity (state session_data);
     info_rounds := negotiation_rounds (state session_data) |}.

(** [GET /sessions]: one entry per stored session.  The route lists them in
    the order the sessions were inserted; the store of this model keeps no
    insertion order, so the order of this list means nothing. *)
Definition get_active_sessions (active_sessions : gmap string session)
  : list session_info :=
  (fun entry => session_info_of entry.1 entry.2) <$> map_to_list active_sessions.

(** A frame of the event stream of [/respond-stream]: the dict that is
    serialised after ["data: "].  The pacing delay between frames is not
    modelled. *)
Inductive frame :=
| f_stream (content : Z)
| f_complete (session_id : string) (options : list pystr)
    (state : NegotiationState) (is_complete : bool)
| f_error (content : string).

(** [stream_message]: one frame per character. *)
Definition stream_message (content : pystr) : list frame :=
  map f_stream content.

Section Streaming.

Context {RT : PyRuntime}.

(** [generate_stream], read to its end, on the dict [current_state]. *)
Definition generate_stream (t_step : string) (session_id : string)
    (current_state : NegotiationState) : list frame :=
  match process_negotiation_step t_step current_state with
  | Ok result =>
      let current_state := merge_result current_state result in
      stream_message (get_bot_response result)
      ++ [ f_complete session_id (get_options result) current_state
             (get_is_complete result) ]
  | Raise e => [ f_error (str_exn e) ]
  end.

(** [POST /respond-stream] with the stream read to its end: the store it
    leaves and the frames it sends, or 404. *)
Definition respond_to_negotiation_stream (t_input t_step : string)
    (request : UserResponse) (active_sessions : gmap string session)
  : gmap string session * (list frame + Z * string) :=
  match active_sessions !! req_session_id request with
  | None => (active_sessions, inr (404, "Session not found"))
  | Some session =>
      let current_state :=
        record_input t_input (req_message request) (state session) in
      (respond_stream_generate t_step (req_session_id request)
         (respond_stream_record t_input request active_sessions),
       inl (generate_stream t_step (req_session_id request) current_state))
  end.

End Streaming.

(** ** Vocabulary of the further properties *)

(** The phases a step can lead to from a phase, read off the handlers. *)
Definition next_phases (ph : string) : list string :=
  if String.eqb ph "initial" then [ "waiting_for_influencer_response" ]
  else if String.eqb ph "waiting_for_influencer_response"
          || String.eqb ph "waiting_for_decision"
  then [ "completed"; "brand_considering"; "waiting_for_decision" ]
  else if String.eqb ph "brand_considering"
  then [ "error"; "completed"; "final_decision" ]
  else if String.eqb ph "final_decision" then [ "completed"; "failed" ]
  else [ "error" ].

(** What the numbers of a stored session look like: a budget that is not
    zero, a brand offer that is the budget or its stretch ceiling, a counter
    offer that is not negative, and an agreed price, if any, that is at most
    the budget or at most the ceiling. *)
Definition is_budget_or_ceiling (b : Z) (x : Z) : Prop :=
  x = b \/ stretch_ceiling b = Ok x.

Definition at_most_budget_or_ceiling (b : Z) (p : Z) : Prop :=
  p <= b \/ exists mb, stretch_ceiling b = Ok mb /\ p <= mb.

Definition numbers_invariant (st : NegotiationState) : Prop :=
  exists b bo io,
    budget st = Some b /\ b <> 0
    /\ brand_offer st = Some bo /\ is_budget_or_ceiling b bo
    /\ influencer_offer st = Some io /\ 0 <= io
    /\ match agreed_price st with
       | Some p => at_most_budget_or_ceiling b p
       | None => True
       end.

(** The text of the option that accepts [amount]. *)
Definition accept_option (amount : Z) : pystr :=
  lit "Accept " ++ rupee :: format_commas amount.
(** * Properties *)

Ltac split_step :=
  repeat match goal with
    | H : context [String.eqb ?a ?b] |- _ => destruct (String.eqb_spec a b)
    | H : context [if ?b then _ else _] |- _ => destruct b eqn:?
    | H : context [match ?x with _ => _ end] |- _ => destruct x eqn:?
    | H : Ok _ = Ok _ |- _ => injection H as <-
    | H : Raise _ = Ok _ |- _ => discriminate H
    | H : Ok _ = Raise _ |- _ => discriminate H
    end.

(** Reduce a merged result to its fields without touching the texts. *)
Ltac merged :=
  cbn [merge_result fold_left keeps set_item
       messages budget campaign_type duration brand_offer influencer_offer
       agreed_price negotiation_phase negotiation_rounds user_input
       session_id created_at last_activity is_complete].

(** ** Binary64: what [int(budget * 1.15)] can return *)

(** [lit_1_15] is a normal binary64 number within half a unit in the last
    place of 23/20, and is what dividing 115.0 by 100.0 gives. *)
Lemma lit_1_15_nearest :
  let m := 5179139571476070 in
  Float64.lit_1_15 = S754_finite false (Z.to_pos m) (-52)
  /\ 2 ^ 52 <= m < 2 ^ 53
  /\ 2 * Z.abs (20 * m - 23 * 2 ^ 52) <= 20
  /\ SFdiv Float64.prec Float64.emax
       (binary_normalize Float64.prec Float64.emax 115 0 false)
       (binary_normalize Float64.prec Float64.emax 100 0 false)
     = Float64.lit_1_15.
Proof. vm_compute. repeat split; congruence. Qed.

(** The ceiling the step computes, next to 115% of the budget: equal at
    budget 20, one less at 100 and at 50000; no ceiling at all for a budget
    of 2^1024. *)
Lemma stretch_ceiling_examples :
  stretch_ceiling 20 = Ok 23
  /\ stretch_ceiling 100 = Ok 114
  /\ stretch_ceiling 50000 = Ok 57499
  /\ stretch_ceiling (2 ^ 1024)
     = Raise (OverflowError "int too large to convert to float").
Proof. repeat split; vm_compute; reflexivity. Qed.

Lemma digits2_lower p : 2 ^ (Zpos (digits2_pos p) - 1) <= Zpos p.
Proof.
  induction p as [p IH|p IH|]; cbn [digits2_pos]; [| |done].
  - rewrite Pos2Z.inj_succ.
    replace (Z.succ (Zpos (digits2_pos p)) - 1) with (Z.succ (Zpos (digits2_pos p) - 1)) by lia.
    rewrite Z.pow_succ_r by lia. lia.
  - rewrite Pos2Z.inj_succ.
    replace (Z.succ (Zpos (digits2_pos p)) - 1) with (Z.succ (Zpos (digits2_pos p) - 1)) by lia.
    rewrite Z.pow_succ_r by lia. lia.
Qed.

Lemma digits2_upper p : Zpos p < 2 ^ Zpos (digits2_pos p).
Proof.
  induction p as [p IH|p IH|]; cbn [digits2_pos]; [| |done].
  - rewrite Pos2Z.inj_succ, Z.pow_succ_r, (Pos2Z.inj_xI p) by lia. lia.
  - rewrite Pos2Z.inj_succ, Z.pow_succ_r, (Pos2Z.inj_xO p) by lia. lia.
Qed.

Lemma Zdigits2_le m k : 0 <= m -> 0 <= k -> m < 2 ^ k -> Zdigits2 m <= k.
Proof.
  intros Hm Hk Hlt. destruct m as [|p|p]; [done| |lia]. cbn [Zdigits2].
  destruct (Z_le_gt_dec (Zpos (digits2_pos p)) k) as [?|Hgt]; [done|exfalso].
  pose proof (digits2_lower p) as Hlow.
  assert (2 ^ k <= 2 ^ (Zpos (digits2_pos p) - 1)) by (apply Z.pow_le_mono_r; lia).
  lia.
Qed.

Lemma shr_1_m mrs : 0 <= shr_m mrs -> shr_m (shr_1 mrs) = shr_m mrs / 2.
Proof.
  destruct mrs as [m r s]. cbn [shr_m shr_1]. intros Hm.
  destruct m as [|[p|p|]|p]; cbn [shr_m]; try done; try lia.
  - rewrite (Pos2Z.inj_xI p). apply Z.div_unique with 1; lia.
  - rewrite (Pos2Z.inj_xO p). apply Z.div_unique with 0; lia.
Qed.

Lemma iter_shr_m p : forall mrs,
  0 <= shr_m mrs ->
  shr_m (SpecFloat.iter_pos shr_1 p mrs) = shr_m mrs / 2 ^ Zpos p.
Proof.
  induction p as [p IH|p IH|]; intros mrs Hm; cbn [SpecFloat.iter_pos].
  - assert (0 < 2 ^ Zpos p) as Hpow by (apply Z.pow_pos_nonneg; lia).
    assert (0 <= shr_m (shr_1 mrs)) as H1
      by (rewrite shr_1_m by done; apply Z.div_pos; lia).
    pose proof (IH _ H1) as E1.
    assert (0 <= shr_m (SpecFloat.iter_pos shr_1 p (shr_1 mrs))) as H2
      by (rewrite E1; apply Z.div_pos; lia).
    rewrite (IH _ H2), E1, shr_1_m by done.
    rewrite !Z.div_div by lia. f_equal.
    rewrite (Pos2Z.inj_xI p).
    replace (2 * Zpos p + 1) with (1 + Zpos p + Zpos p) by lia.
    rewrite !Z.pow_add_r by lia. change (2 ^ 1) with 2. lia.
  - assert (0 < 2 ^ Zpos p) as Hpow by (apply Z.pow_pos_nonneg; lia).
    pose proof (IH _ Hm) as E1.
    assert (0 <= shr_m (SpecFloat.iter_pos shr_1 p mrs)) as H2
      by (rewrite E1; apply Z.div_pos; lia).
    rewrite (IH _ H2), E1.
    rewrite !Z.div_div by lia. f_equal.
    rewrite (Pos2Z.inj_xO p). replace (2 * Zpos p) with (Zpos p + Zpos p) by lia.
    rewrite Z.pow_add_r by lia. done.
  - by apply shr_1_m.
Qed.

(** [shr] divides by a power of two. *)
Lemma shr_spec mrs e n :
  0 <= shr_m mrs ->
  (shr mrs e n).2 = e + Z.max n 0
  /\ shr_m (shr mrs e n).1 = shr_m mrs / 2 ^ Z.max n 0.
Proof.
  intros Hm. unfold shr. destruct n as [|p|p]; cbn [fst snd].
  - rewrite Z.max_r by lia. rewrite Z.div_1_r. split; lia.
  - rewrite Z.max_l by lia. split; [done | by apply iter_shr_m].
  - rewrite Z.max_r by lia. rewrite Z.div_1_r. split; lia.
Qed.

Lemma round_nearest_even_range m l :
  m <= round_nearest_even m l <= m + 1.
Proof.
  unfold round_nearest_even. destruct l as [|[| |]]; try lia.
  destruct (Z.even m); lia.
Qed.

Lemma div_succ_le a c : 0 <= a -> 0 < c -> (a + 1) / c <= a / c + 1.
Proof.
  intros Ha Hc. apply Z.div_le_upper_bound; [done|].
  pose proof (Z.mul_succ_div_gt a c Hc). lia.
Qed.

Lemma pos_iter_xO m d : Zpos (Pos.iter xO m d) = Zpos m * 2 ^ Zpos d.
Proof.
  induction d as [|d IH] using Pos.peano_ind.
  - cbn [Pos.iter]. rewrite (Pos2Z.inj_xO m). change (2 ^ 1) with 2. lia.
  - rewrite Pos.iter_succ, (Pos2Z.inj_xO (Pos.iter xO m d)), IH, Pos2Z.inj_succ.
    rewrite Z.pow_succ_r by lia. lia.
Qed.

(** No shift is needed: the number is returned as it is. *)
Lemma binary_round_aux_exact s p e :
  fexp Float64.prec Float64.emax (Zpos (digits2_pos p) + e) <= e ->
  e <= 971 ->
  binary_round_aux Float64.prec Float64.emax s (Zpos p) e loc_Exact
  = S754_finite s p e.
Proof.
  intros Hf He. unfold binary_round_aux, shr_fexp. cbn [Zdigits2].
  assert (forall n, n <= 0 -> forall mrs, shr mrs e n = (mrs, e)) as Hshr
    by (intros [|?|?] ? ?; [done|lia|done]).
  rewrite Hshr by lia. cbn [shr_record_of_loc loc_of_shr_record shr_m round_nearest_even Zdigits2].
  rewrite Hshr by lia. cbn [shr_record_of_loc shr_m].
  unfold Float64.prec, Float64.emax.
  destruct (Z.leb_spec e (1024 - 53)); [done|lia].
Qed.

(** Rounding a positive number below 2^B: the exponent chosen, and the
    mantissa as the shifted number or its successor. *)
Lemma binary_round_aux_near s m e B :
  0 < m -> m < 2 ^ (B - e) -> 0 <= B <= 1023 -> e <= 971 ->
  exists m' e',
    binary_round_aux Float64.prec Float64.emax s m e loc_Exact
    = match m' with
      | Zpos p => S754_finite s p e'
      | _ => S754_zero s
      end
    /\ e <= e' <= Z.max e (Z.max (B - 52) (-1074))
    /\ m / 2 ^ (e' - e) <= m' <= m / 2 ^ (e' - e) + 1
    /\ m' <= 2 ^ (B - e').
Proof.
  intros Hm Hlt HB He.
  assert (0 <= B - e) as HBe.
  { destruct (Z_lt_le_dec (B - e) 0) as [Hneg|?]; [|done].
    rewrite Z.pow_neg_r in Hlt by done. lia. }
  unfold binary_round_aux, shr_fexp, fexp, emin, Float64.prec, Float64.emax.
  pose proof (Zdigits2_le m (B - e) ltac:(lia) HBe Hlt) as Hd.
  set (n1 := Z.max (Zdigits2 m + e - 53) (3 - 1024 - 53) - e).
  destruct (shr_spec (shr_record_of_loc m loc_Exact) e n1 ltac:(cbn; lia)) as [He1 Hm1].
  destruct (shr (shr_record_of_loc m loc_Exact) e n1) as [mrs1 e1].
  cbn [fst snd shr_record_of_loc shr_m] in He1, Hm1.
  pose proof (round_nearest_even_range (shr_m mrs1) (loc_of_shr_record mrs1)) as Hr.
  set (mr := round_nearest_even (shr_m mrs1) (loc_of_shr_record mrs1)) in *.
  assert (e1 <= B /\ e1 <= 971) as [He1B He1max] by lia.
  assert (0 < 2 ^ Z.max n1 0) as Hp1 by (apply Z.pow_pos_nonneg; lia).
  assert (0 <= shr_m mrs1 < 2 ^ (B - e1)) as Hm1b.
  { rewrite Hm1. split; [apply Z.div_pos; lia|].
    apply Z.div_lt_upper_bound; [done|].
    rewrite <- Z.pow_add_r by lia. replace (Z.max n1 0 + (B - e1)) with (B - e) by lia.
    done. }
  assert (mr < 2 ^ (B - e1 + 1)) as Hmr.
  { rewrite Z.pow_add_r by lia. change (2 ^ 1) with 2.
    assert (0 < 2 ^ (B - e1)) by (apply Z.pow_pos_nonneg; lia). lia. }
  pose proof (Zdigits2_le mr (B - e1 + 1) ltac:(lia) ltac:(lia) Hmr) as Hd2.
  set (n2 := Z.max (Zdigits2 mr + e1 - 53) (3 - 1024 - 53) - e1).
  destruct (shr_spec (shr_record_of_loc mr loc_Exact) e1 n2 ltac:(cbn; lia)) as [He2 Hm2].
  destruct (shr (shr_record_of_loc mr loc_Exact) e1 n2) as [mrs2 e2].
  cbn [fst snd shr_record_of_loc shr_m] in He2, Hm2.
  assert (0 < 2 ^ Z.max n2 0) as Hp2 by (apply Z.pow_pos_nonneg; lia).
  assert (e2 <= 971) as He2max by lia.
  assert (2 ^ (e2 - e) = 2 ^ Z.max n1 0 * 2 ^ Z.max n2 0) as Hpow.
  { rewrite <- Z.pow_add_r by lia. f_equal. lia. }
  assert (m / 2 ^ (e2 - e) <= shr_m mrs2 <= m / 2 ^ (e2 - e) + 1) as Hnear.
  { rewrite Hm2, Hpow, <- Z.div_div by lia. rewrite <- Hm1. split.
    - apply Z.div_le_mono; lia.
    - etransitivity; [apply Z.div_le_mono; [done|apply Hr]|].
      apply div_succ_le; lia. }
  assert (shr_m mrs2 <= 2 ^ (B - e2)) as Hm2b.
  { rewrite Hm2. apply Z.div_le_upper_bound; [done|].
    rewrite <- Z.pow_add_r by lia.
    replace (Z.max n2 0 + (B - e2)) with (B - e1) by lia. lia. }
  exists (shr_m mrs2), e2.
  assert (0 <= m / 2 ^ (e2 - e)).
  { apply Z.div_pos; [lia|]. rewrite Hpow. lia. }
  split; [|split; [lia|split; done]].
  destruct (shr_m mrs2) as [|p|p]; [done| |lia].
  destruct (Z.leb_spec e2 (1024 - 53)) as [_|?]; [done|lia].
Qed.

(** [float(b)] is exact below 2^53. *)
Lemma of_int_exact b :
  0 < b < 2 ^ 53 ->
  exists m e,
    Float64.of_int b = Ok (S754_finite false m e)
    /\ - 52 <= e <= 0
    /\ Zpos m = b * 2 ^ (- e).
Proof.
  intros [Hpos Hlt]. destruct b as [|p|p]; try lia.
  unfold Float64.of_int, binary_normalize, binary_round, shl_align.
  pose proof (digits2_lower p) as Hlow. pose proof (digits2_upper p) as Hup.
  assert (Zpos (digits2_pos p) <= 53) as Hd
    by (apply (Zdigits2_le (Zpos p)); lia).
  assert (fexp Float64.prec Float64.emax (Zpos (digits2_pos p) + 0)
          = Zpos (digits2_pos p) - 53) as Hf
    by (unfold fexp, emin, Float64.prec, Float64.emax; lia).
  rewrite Hf.
  destruct (Zpos (digits2_pos p) - 53 - 0) as [|d|d] eqn:Ed; try lia.
  - rewrite binary_round_aux_exact by (rewrite ?Hf; lia).
    exists p, 0. split; [done|]. split; [lia|]. change (2 ^ (- 0)) with 1. lia.
  - assert (Zpos (Pos.iter xO p d) < 2 ^ 53) as Hmz.
    { rewrite pos_iter_xO.
      replace 53 with (Zpos (digits2_pos p) + Zpos d) by lia.
      rewrite Z.pow_add_r by lia.
      assert (0 < 2 ^ Zpos d) by (apply Z.pow_pos_nonneg; lia). nia. }
    rewrite binary_round_aux_exact.
    + exists (Pos.iter xO p d), (Zpos (digits2_pos p) - 53).
      split; [done|]. split; [lia|].
      rewrite pos_iter_xO. f_equal. f_equal. lia.
    + pose proof (Zdigits2_le (Zpos (Pos.iter xO p d)) 53 ltac:(lia) ltac:(lia) Hmz).
      cbn [Zdigits2] in *.
      unfold fexp, emin, Float64.prec, Float64.emax. lia.
    + lia.
Qed.

(** Below 2^1021 in absolute value, [float(z)] is finite. *)
Lemma of_int_finite z :
  Z.abs z < 2 ^ 1021 ->
  exists f,
    Float64.of_int z = Ok f
    /\ match f with
       | S754_zero _ => True
       | S754_finite _ m e => Zpos m <= 2 ^ (1021 - e) /\ e <= 971
       | _ => False
       end.
Proof.
  intros Hz. unfold Float64.of_int, binary_normalize.
  assert (forall s p,
            Zpos p < 2 ^ 1021 ->
            exists m' e',
              binary_round Float64.prec Float64.emax s p 0
              = match m' with
                | Zpos q => S754_finite s q e'
                | _ => S754_zero s
                end
              /\ m' <= 2 ^ (1021 - e') /\ e' <= 971) as Hround.
  { intros s p Hp. unfold binary_round, shl_align.
    destruct (fexp Float64.prec Float64.emax (Zpos (digits2_pos p) + 0) - 0)
      as [|d|d] eqn:Ed.
    - destruct (binary_round_aux_near s (Zpos p) 0 1021)
        as (m' & e' & Hres & He' & _ & Hm'); try lia.
      exists m', e'. repeat split; [done|done|lia].
    - destruct (binary_round_aux_near s (Zpos p) 0 1021)
        as (m' & e' & Hres & He' & _ & Hm'); try lia.
      exists m', e'. repeat split; [done|done|lia].
    - set (ez := fexp Float64.prec Float64.emax (Zpos (digits2_pos p) + 0)) in *.
      destruct (binary_round_aux_near s (Zpos (Pos.iter xO p d)) ez 1021)
        as (m' & e' & Hres & He' & _ & Hm'); try lia.
      + rewrite pos_iter_xO.
        replace (1021 - ez) with (1021 + Zpos d) by lia.
        rewrite Z.pow_add_r by lia.
        assert (0 < 2 ^ Zpos d) by (apply Z.pow_pos_nonneg; lia). nia.
      + exists m', e'. repeat split; [done|done|lia]. }
  destruct z as [|p|p].
  - by eexists.
  - destruct (Hround false p) as (m' & e' & -> & ? & ?); [lia|].
    destruct m'; by eexists.
  - destruct (Hround true p) as (m' & e' & -> & ? & ?); [lia|].
    destruct m'; by eexists.
Qed.

(** So [int(budget * 1.15)] raises for no budget below 2^1021 in absolute
    value. *)
Lemma stretch_ceiling_total z :
  Z.abs z < 2 ^ 1021 -> exists m, stretch_ceiling z = Ok m.
Proof.
  intros Hz. unfold stretch_ceiling.
  destruct (of_int_finite z Hz) as (f & -> & Hf). cbn [bind].
  destruct f as [s| | |s m e]; try done.
  - by eexists.
  - destruct Hf as [Hm He].
    unfold Float64.mul, Float64.lit_1_15, SFmul.
    destruct (binary_round_aux_near (xorb s false)
                (Zpos (m * 5179139571476070)) (e + -52) 1023)
      as (m' & e' & -> & _); try lia; [|destruct m'; by eexists].
    rewrite Pos2Z.inj_mul.
    replace (1023 - (e + -52)) with ((1021 - e) + 54) by lia.
    assert (0 <= 1021 - e).
    { destruct (Z_lt_le_dec (1021 - e) 0) as [Hneg|?]; [|done].
      rewrite Z.pow_neg_r in Hm by done. lia. }
    rewrite Z.pow_add_r by lia.
    assert (5179139571476070 < 2 ^ 54) by (vm_compute; reflexivity).
    nia.
Qed.

(** For a budget between 1 and 2^46 the ceiling the step computes is the
    floor of 115% of the budget, or one less. *)
Lemma stretch_ceiling_near_floor b :
  0 < b < 2 ^ 46 ->
  exists mb,
    stretch_ceiling b = Ok mb
    /\ b * 115 / 100 - 1 <= mb <= b * 115 / 100.
Proof.
  intros [Hpos Hlt].
  assert (2 ^ 46 < 2 ^ 53) as H4653 by (vm_compute; reflexivity).
  destruct (of_int_exact b ltac:(lia)) as (m1 & e1 & Hof & He1 & Hm1).
  unfold stretch_ceiling. rewrite Hof. cbn [bind].
  unfold Float64.mul, Float64.lit_1_15, SFmul. cbn [xorb].
  set (M := 5179139571476070%positive).
  assert (20 * Zpos M = 23 * 2 ^ 52 - 8) as HM by (vm_compute; reflexivity).
  assert (0 < 2 ^ (- e1)) as Hp1 by (apply Z.pow_pos_nonneg; lia).
  assert (2 ^ (52 - e1) = 2 ^ 52 * 2 ^ (- e1)) as H52
    by (rewrite <- Z.pow_add_r by lia; f_equal; lia).
  assert (2 ^ 52 = 4503599627370496) as E52 by (vm_compute; reflexivity).
  assert (2 ^ 46 = 70368744177664) as E46 by (vm_compute; reflexivity).
  assert (2 ^ 47 = 140737488355328) as E47 by (vm_compute; reflexivity).
  destruct (binary_round_aux_near false (Zpos (m1 * M)) (e1 + -52) 47)
    as (m' & e' & Hres & [Hlo Hhi] & Hnear & _); try lia.
  { rewrite Pos2Z.inj_mul, Hm1.
    replace (47 - (e1 + -52)) with (47 + (52 - e1)) by lia.
    rewrite Z.pow_add_r, H52 by lia. nia. }
  rewrite Hres.
  assert (e' <= -5) as He' by lia.
  set (n := e' - (e1 + -52)) in *.
  assert (0 < 2 ^ n) as Hpn by (apply Z.pow_pos_nonneg; lia).
  assert (0 < 2 ^ (- e')) as Hpe by (apply Z.pow_pos_nonneg; lia).
  assert (2 ^ n * 2 ^ (- e') = 2 ^ 52 * 2 ^ (- e1)) as Hsplit.
  { rewrite <- !Z.pow_add_r by lia. f_equal. lia. }
  assert (2 ^ n * 32 <= 2 ^ 52 * 2 ^ (- e1)) as Hn47.
  { rewrite <- Hsplit. apply Z.mul_le_mono_nonneg_l; [lia|].
    change 32 with (2 ^ 5). apply Z.pow_le_mono_r; lia. }
  set (k := b * 115 / 100).
  assert (100 * k <= b * 115 < 100 * k + 100) as Hk.
  { unfold k. pose proof (Z.mul_div_le (b * 115) 100 ltac:(lia)).
    pose proof (Z.mul_succ_div_gt (b * 115) 100 ltac:(lia)). lia. }
  assert (23 * b <= 20 * k + 19) as Hk19 by lia.
  set (q := Zpos (m1 * M) / 2 ^ n) in *.
  assert (0 <= q) as Hq0 by (apply Z.div_pos; lia).
  assert (2 ^ n * q <= Zpos (m1 * M) < 2 ^ n * q + 2 ^ n) as Hq.
  { unfold q. pose proof (Z.mul_div_le (Zpos (m1 * M)) (2 ^ n) Hpn).
    pose proof (Z.mul_succ_div_gt (Zpos (m1 * M)) (2 ^ n) Hpn). lia. }
  rewrite Pos2Z.inj_mul, Hm1 in Hq.
  assert (forall v, 0 <= v -> Z.shiftl v e' = v / 2 ^ (- e')) as Hshift.
  { intros v Hv. rewrite <- Z.shiftr_opp_r. apply Z.shiftr_div_pow2. lia. }
  set (S := 2 ^ (- e1)) in *. set (P := 2 ^ (- e')) in *. set (N := 2 ^ n) in *.
  rewrite E52 in *.
  assert ((k - 1) * 4503599627370496 <= b * Zpos M
          /\ 32 * (b * Zpos M) + 4503599627370496
             < 32 * ((k + 1) * 4503599627370496)) as [HA HB] by lia.
  assert ((k - 1) * P <= m' /\ m' < (k + 1) * P) as [Hlow Hupp].
  { split.
    - assert ((k - 1) * P < q + 1); [|lia].
      apply Z.mul_lt_mono_pos_l with N; [done|].
      replace (N * ((k - 1) * P)) with ((k - 1) * 4503599627370496 * S) by lia.
      assert ((k - 1) * 4503599627370496 * S <= b * Zpos M * S)
        by (apply Z.mul_le_mono_nonneg_r; lia).
      lia.
    - assert (q + 1 < (k + 1) * P); [|lia].
      apply Z.mul_lt_mono_pos_l with (32 * N); [lia|].
      replace (32 * N * ((k + 1) * P))
        with (32 * ((k + 1) * 4503599627370496) * S) by lia.
      assert ((32 * (b * Zpos M) + 4503599627370496) * S
              < 32 * ((k + 1) * 4503599627370496) * S)
        by (apply Z.mul_lt_mono_pos_r; lia).
      lia. }
  destruct m' as [|p|p]; cbn [Float64.to_int].
  - exists 0. split; [done|]. nia.
  - exists (Z.shiftl (Zpos p) e'). split; [done|].
    rewrite Hshift by lia. split.
    + apply Z.div_le_lower_bound; lia.
    + apply Z.lt_succ_r, Z.div_lt_upper_bound; lia.
  - lia.
Qed.

(** ** The fields no step writes *)

Lemma same_identity_refl st : same_identity st st.
Proof. by repeat split. Qed.

Lemma same_identity_trans st1 st2 st3 :
  same_identity st1 st2 -> same_identity st2 st3 -> same_identity st1 st3.
Proof.
  unfold same_identity. intros (-> & -> & -> & ->) (-> & -> & -> & ->). done.
Qed.

Lemma set_item_identity st it : same_identity st (set_item st it).
Proof. destruct st, it; by repeat split. Qed.

Lemma merge_result_identity res : forall st, same_identity st (merge_result st res).
Proof.
  unfold merge_result. induction res as [|it res IH]; intros st; simpl.
  - apply same_identity_refl.
  - destruct (keeps it); [|apply IH].
    eapply same_identity_trans; [apply set_item_identity | apply IH].
Qed.

Lemma record_input_identity t msg st : same_identity st (record_input t msg st).
Proof. by destruct st. Qed.

Section Frame.

Context {RT : PyRuntime}.

Lemma respond_state_identity t_input t_step msg st :
  same_identity st (respond_state t_input t_step msg st).
Proof.
  unfold respond_state.
  destruct (process_negotiation_step _ _).
  - eapply same_identity_trans; [apply record_input_identity | apply merge_result_identity].
  - apply record_input_identity.
Qed.

(** What [/respond] leaves in the store, in terms of [respond_state]. *)
Lemma respond_store t_input t_step request sessions :
  (respond_to_negotiation t_input t_step request sessions).1 =
  match sessions !! req_session_id request with
  | Some s =>
      <[req_session_id request :=
          {| state := respond_state t_input t_step (req_message request) (state s);
             entry_created_at := entry_created_at s |}]> sessions
  | None => sessions
  end.
Proof.
  unfold respond_to_negotiation, respond_state.
  destruct (sessions !! req_session_id request) as [s|]; [|done].
  by destruct (process_negotiation_step _ _).
Qed.

End Frame.

(** ** What one step can do *)

Lemma handled_not_closed ph :
  handled ph -> ph <> "completed" /\ ph <> "error".
Proof. unfold handled. intros H; split; intros ->; intuition discriminate. Qed.

Lemma open_not_closed ph :
  open_phase ph -> ph <> "completed" /\ ph <> "error".
Proof. unfold open_phase. intros H; split; intros ->; intuition discriminate. Qed.

Section Outcome.

Context {RT : PyRuntime}.

Lemma brand_initial_offer_shape now st res :
  brand_initial_offer now st = Ok res -> step_shape now st (merge_result st res).
Proof.
  destruct st as [ms b ct du bo io ap ph rd ui sid ca la ic].
  unfold brand_initial_offer, bind, replace_, step_shape, open_phase.
  cbn [budget campaign_type duration negotiation_rounds].
  intros H. split_step. merged. repeat split. right; right. split; [by left | done].
Qed.

Lemma handle_influencer_response_shape now st res :
  handle_influencer_response now st = Ok res ->
  step_shape now st (merge_result st res).
Proof.
  destruct st as [ms b ct du bo io ap ph rd ui sid ca la ic].
  unfold handle_influencer_response, bind, replace_, fmt, step_shape, open_phase.
  cbn [brand_offer campaign_type duration negotiation_rounds user_input].
  intros H. split_step; merged; repeat split; try (left; split; done);
    right; right; (split; [|done]); auto.
Qed.

Lemma brand_considers_counter_shape now st res :
  brand_considers_counter now st = Ok res ->
  error_shape st (merge_result st res) \/ step_shape now st (merge_result st res).
Proof.
  destruct st as [ms b ct du bo io ap ph rd ui sid ca la ic].
  unfold brand_considers_counter, bind, error_shape, step_shape, open_phase.
  cbn [budget influencer_offer negotiation_rounds].
  intros H. split_step; merged; try (left; done); right; repeat split;
    try (left; split; done); right; right; (split; [|done]); auto.
Qed.

Lemma handle_final_decision_shape now st res :
  handle_final_decision now st = Ok res ->
  step_shape now st (merge_result st res).
Proof.
  destruct st as [ms b ct du bo io ap ph rd ui sid ca la ic].
  unfold handle_final_decision, bind, fmt, step_shape.
  cbn [brand_offer negotiation_rounds user_input].
  intros H. split_step; merged; repeat split;
    [left; split; done | right; left; split; done].
Qed.

(** The dispatch of [process_negotiation_step], one case per branch. *)
Lemma step_dispatch now st :
  (negotiation_phase st = "initial"
   /\ process_negotiation_step now st = brand_initial_offer now st)
  \/ (waiting (negotiation_phase st)
      /\ process_negotiation_step now st = handle_influencer_response now st)
  \/ (negotiation_phase st = "brand_considering"
      /\ process_negotiation_step now st = brand_considers_counter now st)
  \/ (negotiation_phase st = "final_decision"
      /\ process_negotiation_step now st = handle_final_decision now st)
  \/ (~ handled (negotiation_phase st)
      /\ process_negotiation_step now st =
           Ok [ k_negotiation_phase "error"; k_bot_response generic_failure ]).
Proof.
  unfold process_negotiation_step, handled, waiting.
  destruct (String.eqb_spec (negotiation_phase st) "initial") as [->|?]; [by left|].
  destruct (String.eqb_spec (negotiation_phase st) "waiting_for_influencer_response")
    as [->|?]; [right; left; split; [by left | done]|].
  destruct (String.eqb_spec (negotiation_phase st) "waiting_for_decision")
    as [->|?]; [right; left; split; [by right | done]|].
  destruct (String.eqb_spec (negotiation_phase st) "brand_considering")
    as [->|?]; [right; right; left; done|].
  destruct (String.eqb_spec (negotiation_phase st) "final_decision")
    as [->|?]; [right; right; right; left; done|].
  right; right; right; right. split; [|done]. intuition congruence.
Qed.

Lemma step_unhandled now st :
  ~ handled (negotiation_phase st) ->
  process_negotiation_step now st =
    Ok [ k_negotiation_phase "error"; k_bot_response generic_failure ].
Proof.
  intros Hn.
  destruct (step_dispatch now st)
    as [[Hp E]|[[Hp E]|[[Hp E]|[[Hp E]|[Hp E]]]]]; try done;
    exfalso; apply Hn; unfold handled, waiting in *; tauto.
Qed.

Lemma step_outcome now st res :
  process_negotiation_step now st = Ok res ->
  error_shape st (merge_result st res)
  \/ (handled (negotiation_phase st) /\ step_shape now st (merge_result st res)).
Proof.
  intros H.
  destruct (step_dispatch now st)
    as [[Hp E]|[[Hp E]|[[Hp E]|[[Hp E]|[Hp E]]]]]; rewrite E in H;
    unfold handled, waiting in *.
  - right. split; [auto|]. by apply brand_initial_offer_shape.
  - right. split; [tauto|]. by apply handle_influencer_response_shape.
  - apply brand_considers_counter_shape in H as [H|H]; [by left|].
    right. split; [auto 10|done].
  - right. split; [auto 10|]. by apply handle_final_decision_shape.
  - left. injection H as <-. by destruct st.
Qed.

End Outcome.

(** ** Agreed price and phase *)

Section Invariant.

Context {RT : PyRuntime}.

Lemma price_invariant_step now st res :
  price_invariant st ->
  process_negotiation_step now st = Ok res ->
  price_invariant (merge_result st res).
Proof.
  intros [Hc Hp] Hstep. unfold price_invariant.
  destruct (step_outcome _ _ _ Hstep) as [(Hph & _ & Hap & _)|[Hh (_ & _ & Hcases)]].
  - rewrite Hph. split; [discriminate | auto].
  - assert (agreed_price st = None) as Hnone.
    { destruct (agreed_price st) eqn:E; [|done].
      apply handled_not_closed in Hh as [? ?].
      destruct Hp as [?|?]; [done| |]; contradiction. }
    destruct Hcases as [[Hph Hap]|[[Hph Hap]|[Hopen Hap]]].
    + rewrite Hph. split; [done | by left].
    + rewrite Hph, Hap. split; [discriminate | done].
    + rewrite Hap, Hnone. apply open_not_closed in Hopen as [? ?].
      split; [done | done].
Qed.

Lemma price_invariant_respond_state t_input t_step msg st :
  price_invariant st -> price_invariant (respond_state t_input t_step msg st).
Proof.
  intros H.
  assert (price_invariant (record_input t_input msg st)) as H' by by destruct st.
  unfold respond_state.
  destruct (process_negotiation_step _ _) eqn:E; [|done].
  by eapply price_invariant_step.
Qed.

Lemma price_invariant_start sid t_created t_last t_step request res :
  process_negotiation_step t_step (initial_state sid t_created t_last request) = Ok res ->
  price_invariant (merge_result (initial_state sid t_created t_last request) res).
Proof.
  apply price_invariant_step. split; cbn; [discriminate | done].
Qed.

End Invariant.

Lemma demo_open_reachable budget : reachable (demo_open budget).
Proof. apply reach_start, reach_empty. Qed.

Lemma demo_say_reachable message sessions :
  reachable sessions -> reachable (demo_say message sessions).
Proof. apply reach_respond. Qed.

(** C9: the fields budget, campaign_type, duration and session_id of a
    session are the same after an engine step (merged into the state) as
    before it, the same after the whole of [/respond] whether or not the
    step raised, and [/respond] on a store changes them for no stored
    session (nor does it add or remove a session). *)
Theorem identity_fields_immutable {RT : PyRuntime} :
  (forall now st,
     match process_negotiation_step now st with
     | Ok res => same_identity st (merge_result st res)
     | Raise _ => True
     end)
  /\ (forall t_input t_step message st,
        same_identity st (respond_state t_input t_step message st))
  /\ (forall t_input t_step request sessions sid,
        match sessions !! sid,
              (respond_to_negotiation t_input t_step request sessions).1 !! sid
        with
        | Some s, Some s' => same_identity (state s) (state s')
        | None, None => True
        | _, _ => False
        end).
Proof.
  split; [|split].
  - intros now st. destruct (process_negotiation_step now st); [|done].
    apply merge_result_identity.
  - intros. apply respond_state_identity.
  - intros t_input t_step request sessions sid. rewrite respond_store.
    destruct (sessions !! req_session_id request) as [s0|] eqn:E0.
    + destruct (decide (req_session_id request = sid)) as [<-|Hne].
      * rewrite E0, lookup_insert_eq. apply respond_state_identity.
      * rewrite lookup_insert_ne by done.
        destruct (sessions !! sid); [apply same_identity_refl | done].
    + destruct (sessions !! sid); [apply same_identity_refl | done].
Qed.

(** C1 (as amended): in every store the service can reach, every session
    has a non-null agreed_price whenever its phase is "completed", and a
    non-null agreed_price only in phase "completed" or "error" (the phase
    a completed session moves to when a further step is applied to it).
    The stores are those reached from the empty one by the routes that
    write: start, respond, the streaming respond, and delete. *)
Theorem agreed_price_invariant {RT : PyRuntime} sessions sid s :
  reachable sessions ->
  sessions !! sid = Some s ->
  (negotiation_phase (state s) = "completed" -> agreed_price (state s) <> None)
  /\ (agreed_price (state s) <> None ->
      negotiation_phase (state s) = "completed"
      \/ negotiation_phase (state s) = "error").
Proof.
  intros Hr. revert sid s. fold (price_invariant).
  induction Hr as [|sid0 t1 t2 t3 t4 request sessions _ IH
                  |t1 t2 request sessions _ IH
                  |t1 request sessions _ IH
                  |t2 sid0 sessions _ IH
                  |sid0 sessions _ IH];
    intros sid s Hs.
  - by rewrite lookup_empty in Hs.
  - unfold start_negotiation in Hs.
    destruct (process_negotiation_step _ _) eqn:E; [|by eapply IH].
    cbn [fst] in Hs. destruct (decide (sid0 = sid)) as [->|Hne].
    + rewrite lookup_insert_eq in Hs. injection Hs as <-. cbn [state].
      eapply price_invariant_start. exact E.
    + rewrite lookup_insert_ne in Hs by done. by eapply IH.
  - rewrite respond_store in Hs.
    destruct (sessions !! req_session_id request) as [s0|] eqn:E0; [|by eapply IH].
    destruct (decide (req_session_id request = sid)) as [<-|Hne].
    + rewrite lookup_insert_eq in Hs. injection Hs as <-. cbn [state].
      apply price_invariant_respond_state. by eapply IH.
    + rewrite lookup_insert_ne in Hs by done. by eapply IH.
  - unfold respond_stream_record in Hs.
    destruct (sessions !! req_session_id request) as [s0|] eqn:E0; [|by eapply IH].
    destruct (decide (req_session_id request = sid)) as [<-|Hne].
    + rewrite lookup_insert_eq in Hs. injection Hs as <-. cbn [state].
      pose proof (IH _ _ E0) as Hinv. by destruct (state s0).
    + rewrite lookup_insert_ne in Hs by done. by eapply IH.
  - unfold respond_stream_generate in Hs.
    destruct (sessions !! sid0) as [s0|] eqn:E0; [|by eapply IH].
    destruct (process_negotiation_step t2 (state s0)) eqn:E; [|by eapply IH].
    destruct (decide (sid0 = sid)) as [->|Hne].
    + rewrite lookup_insert_eq in Hs. injection Hs as <-. cbn [state].
      eapply price_invariant_step; [by eapply IH | exact E].
    + rewrite lookup_insert_ne in Hs by done. by eapply IH.
  - unfold end_session in Hs.
    destruct (sessions !! sid0) eqn:E0; cbn [fst] in Hs; [|by eapply IH].
    destruct (decide (sid0 = sid)) as [->|Hne].
    + by rewrite lookup_delete_eq in Hs.
    + rewrite lookup_delete_ne in Hs by done. by eapply IH.
Qed.

(** The invariant on a session that accepted the opening offer. *)
Lemma agreed_price_invariant_witness :
  exists s,
    demo_say (lit "yes please") (demo_open 50000) !! "s1" = Some s
    /\ negotiation_phase (state s) = "completed"
    /\ ((negotiation_phase (state s) = "completed" -> agreed_price (state s) <> None)
        /\ (agreed_price (state s) <> None ->
            negotiation_phase (state s) = "completed"
            \/ negotiation_phase (state s) = "error")).
Proof.
  eexists. split; [vm_compute; reflexivity|]. split; [reflexivity|].
  apply (agreed_price_invariant
           (demo_say (lit "yes please") (demo_open 50000)) "s1").
  - apply demo_say_reachable, demo_open_reachable.
  - vm_compute. reflexivity.
Defined.

(** C1 as the specification states it fails: a session that completed at
    50000 and receives one more message is in phase "error" and still
    carries the agreed price. *)
Lemma price_outlives_completed :
  let before := demo_say (lit "yes please") (demo_open 50000) in
  let after := demo_say (lit "again") before in
  reachable after
  /\ negotiation_phase <$> demo_state before = Some "completed"
  /\ negotiation_phase <$> demo_state after = Some "error"
  /\ agreed_price <$> demo_state after = Some (Some 50000)
  /\ exists st, demo_state after = Some st /\ ~ price_iff_completed st.
Proof.
  repeat split; try (vm_compute; reflexivity).
  - do 2 apply demo_say_reachable. apply demo_open_reachable.
  - eexists. split; [vm_compute; reflexivity|].
    unfold price_iff_completed. cbn. intros [H _].
    assert (Some 50000 <> None) as Hne by discriminate.
    apply H in Hne. discriminate Hne.
Qed.

(** ** Rounds *)

Lemma step_shape_not_error now st st' :
  step_shape now st st' -> negotiation_phase st' <> "error".
Proof.
  intros (_ & _ & [[-> _]|[[-> _]|[Ho _]]]); try discriminate.
  by apply open_not_closed in Ho as [_ ?].
Qed.

Section Rounds.

Context {RT : PyRuntime}.

Lemma respond_state_rounds t_input t_step message st :
  let st' := respond_state t_input t_step message st in
  if advances t_input t_step message st
  then negotiation_rounds st' = negotiation_rounds st + 1
       /\ last_activity st' = t_step
  else negotiation_rounds st' = negotiation_rounds st
       /\ last_activity st' = t_input.
Proof.
  unfold respond_state, advances.
  assert (negotiation_rounds (record_input t_input message st) = negotiation_rounds st
          /\ last_activity (record_input t_input message st) = t_input)
    as [Hr Hl] by by destruct st.
  destruct (process_negotiation_step _ _) as [res|e] eqn:E; cbn zeta; [|done].
  destruct (step_outcome _ _ _ E) as [(Hph & Hrd & _ & Hla & _)|[_ Hs]].
  - rewrite Hph, String.eqb_refl. cbn [negb]. by rewrite Hrd, Hla.
  - pose proof (step_shape_not_error _ _ _ Hs) as Hne.
    destruct (String.eqb_spec
                (negotiation_phase (merge_result (record_input t_input message st) res))
                "error") as [?|_]; [done|].
    destruct Hs as (Hrd & Hla & _). cbn [negb]. by rewrite Hrd, Hr.
Qed.

Lemma play_rounds turns : forall st,
  negotiation_rounds (play st turns)
  = negotiation_rounds st + Z.of_nat (advancing st turns)
  /\ (advancing st turns <= length turns)%nat.
Proof.
  induction turns as [|t turns IH]; intros st.
  - cbn. split; lia.
  - change (play st (t :: turns))
      with (play (respond_state (turn_t_input t) (turn_t_step t) (turn_message t) st) turns).
    destruct (IH (respond_state (turn_t_input t) (turn_t_step t) (turn_message t) st))
      as [-> Hle].
    pose proof (respond_state_rounds (turn_t_input t) (turn_t_step t) (turn_message t) st)
      as Hstep.
    cbn [advancing length].
    destruct (advances _ _ _ st); destruct Hstep as [-> _]; split; lia.
Qed.

End Rounds.

(** C4 (as amended): a client turn whose step neither raises nor ends in
    phase "error" increments rounds by exactly 1 and sets last_activity to
    the clock reading of its handler; any other turn leaves rounds as it
    was, last_activity holding the time [/respond] recorded the input.  So
    a session starts with rounds 1 and after N client turns has rounds
    1 + (the number of those turns that advanced), at most N+1, and N+1
    exactly when every turn advanced. *)
Theorem rounds_count_advancing_turns {RT : PyRuntime} :
  (forall t_input t_step message st,
     let st' := respond_state t_input t_step message st in
     if advances t_input t_step message st
     then negotiation_rounds st' = negotiation_rounds st + 1
          /\ last_activity st' = t_step
     else negotiation_rounds st' = negotiation_rounds st
          /\ last_activity st' = t_input)
  /\ (forall sid t_created t_last t_step t_entry request sessions turns,
        match (start_negotiation sid t_created t_last t_step t_entry
                 request sessions).2 with
        | Reply r =>
            let n := advancing (reply_state r) turns in
            negotiation_rounds (reply_state r) = 1
            /\ negotiation_rounds (play (reply_state r) turns) = Z.of_nat n + 1
            /\ (n <= length turns)%nat
            /\ (n = length turns <->
                negotiation_rounds (play (reply_state r) turns)
                = Z.of_nat (length turns) + 1)
        | HTTPException _ _ => True
        end).
Proof.
  split; [apply respond_state_rounds|].
  intros sid t_created t_last t_step t_entry request sessions turns.
  unfold start_negotiation.
  destruct (process_negotiation_step _ _) as [res|e] eqn:E; cbn [snd]; [|done].
  cbn [reply_state]. cbn zeta.
  assert (negotiation_rounds
            (merge_result (initial_state sid t_created t_last request) res) = 1)
    as Hone.
  { destruct (step_outcome _ _ _ E) as [(Hph & _)|[_ (Hrd & _)]].
    - exfalso. revert E Hph. unfold process_negotiation_step, brand_initial_offer, bind, replace_.
      cbn [initial_state negotiation_phase budget campaign_type duration String.eqb
           Ascii.eqb Bool.eqb].
      intros E. split_step. merged. discriminate.
    - by rewrite Hrd. }
  destruct (play_rounds turns
              (merge_result (initial_state sid t_created t_last request) res))
    as [Hplay Hle].
  rewrite Hplay, Hone. repeat split; try lia.
Qed.

(** A conversation without error branch: details, a counter-offer of
    60000, the brand's final offer, and the refusal; four client turns,
    five rounds. *)
Lemma rounds_of_a_full_conversation :
  let sessions :=
    demo_say (lit "no thanks")
      (demo_say (lit "ok")
         (demo_say (lit "60000")
            (demo_say (lit "what is the campaign?") (demo_open 50000)))) in
  negotiation_phase <$> demo_state sessions = Some "failed"
  /\ negotiation_rounds <$> demo_state sessions = Some (Z.of_nat 4 + 1)
  /\ last_activity <$> demo_state sessions = Some "t2".
Proof. repeat split; vm_compute; reflexivity. Qed.

(** C4 as the specification states it fails on an error branch: after the
    opening offer and two client turns ("0", then anything) the session is
    in phase "error" with rounds 2, not 3. *)
Lemma error_branch_skips_round :
  let after := demo_say (lit "x") (demo_say (lit "0") (demo_open 50000)) in
  reachable after
  /\ negotiation_phase <$> demo_state (demo_say (lit "0") (demo_open 50000))
     = Some "brand_considering"
  /\ negotiation_phase <$> demo_state after = Some "error"
  /\ negotiation_rounds <$> demo_state after = Some 2
  /\ negotiation_rounds <$> demo_state after <> Some (Z.of_nat 2 + 1).
Proof.
  repeat split; try (vm_compute; reflexivity).
  - do 2 apply demo_say_reachable. apply demo_open_reachable.
  - vm_compute. discriminate.
Qed.

(** ** The brand's answer to a counter-offer *)

Section Dispatch.

Context {RT : PyRuntime}.

Lemma step_waiting now st :
  waiting (negotiation_phase st) ->
  process_negotiation_step now st = handle_influencer_response now st.
Proof.
  unfold process_negotiation_step. by intros [-> | ->].
Qed.

Lemma step_brand_considering now st :
  negotiation_phase st = "brand_considering" ->
  process_negotiation_step now st = brand_considers_counter now st.
Proof.
  unfold process_negotiation_step. by intros ->.
Qed.

Lemma step_final_decision now st :
  negotiation_phase st = "final_decision" ->
  process_negotiation_step now st = handle_final_decision now st.
Proof.
  unfold process_negotiation_step. by intros ->.
Qed.

End Dispatch.

(** C2 (the code at the failing input): from "brand_considering" with
    budget 50000 and influencer_offer 60000 the step moves to
    "final_decision" with brand_offer 57499, the truncation of the binary64
    product 50000 * 1.15 = 57499.99999999999, while floor(50000 * 1.15) in
    exact arithmetic is 57500. *)
Theorem final_offer_at_50000 {RT : PyRuntime} now st :
  negotiation_phase st = "brand_considering" ->
  budget st = Some 50000 ->
  influencer_offer st = Some 60000 ->
  exists res,
    process_negotiation_step now st = Ok res
    /\ negotiation_phase (merge_result st res) = "final_decision"
    /\ brand_offer (merge_result st res) = Some 57499
    /\ (let* f := Float64.of_int 50000 in Ok (Float64.mul f Float64.lit_1_15))
       = Ok (S754_finite false 7902739824639999 (-37))
    /\ 7902739824639999 < 57500 * 2 ^ 37
    /\ 50000 * 115 / 100 = 57500.
Proof.
  intros Hp Hb Hio. rewrite (step_brand_considering now st Hp).
  destruct st as [ms b ct du bo io ap ph rd ui sid ca la ic].
  cbn in Hb, Hio. subst b io. unfold brand_considers_counter.
  cbn [influencer_offer budget negotiation_rounds].
  assert (stretch_ceiling 50000 = Ok 57499) as -> by (vm_compute; reflexivity).
  cbn [bind].
  change (60000 =? 0) with false. change (50000 =? 0) with false.
  change (60000 <=? 50000) with false. change (60000 <=? 57499) with false.
  cbn [orb]. eexists. split; [reflexivity|]. merged.
  repeat split; vm_compute; congruence.
Qed.

(** The opening offer of 50000, countered with 60000. *)
Lemma final_offer_at_50000_witness :
  exists res,
    process_negotiation_step "t2"
      (demo_session "brand_considering" (Some 50000) (Some 50000) (Some 60000) (lit "x"))
    = Ok res
    /\ get_options res = [lit "Accept final offer"; lit "Decline offer"]
    /\ brand_offer
         (merge_result
            (demo_session "brand_considering" (Some 50000) (Some 50000)
               (Some 60000) (lit "x")) res)
       = Some 57499.
Proof.
  destruct (final_offer_at_50000 "t2"
              (demo_session "brand_considering" (Some 50000) (Some 50000)
                 (Some 60000) (lit "x")) eq_refl eq_refl eq_refl)
    as (res & Hres & _ & Hbo & _).
  exists res. split; [exact Hres|]. split; [|exact Hbo].
  vm_compute in Hres. injection Hres as <-. vm_compute. reflexivity.
Defined.

(** At budget 50000 a counter-offer of exactly 57500 is answered with a
    final offer of 57499. *)
Lemma stretch_boundary_refused :
  let st := demo_session "brand_considering" (Some 50000) (Some 50000)
              (Some 57500) (lit "x") in
  exists res,
    process_negotiation_step "t2" st = Ok res
    /\ negotiation_phase (merge_result st res) = "final_decision"
    /\ brand_offer (merge_result st res) = Some 57499
    /\ agreed_price (merge_result st res) = None.
Proof. eexists. repeat split; vm_compute; reflexivity. Qed.

(** In "brand_considering" an offer up to the budget, or up to the
    ceiling the step computes, is accepted. *)
Lemma brand_accepts_up_to_ceiling {RT : PyRuntime} now st io b mb :
  negotiation_phase st = "brand_considering" ->
  influencer_offer st = Some io ->
  budget st = Some b ->
  io <> 0 ->
  b <> 0 ->
  stretch_ceiling b = Ok mb ->
  io <= b \/ io <= mb ->
  exists res,
    process_negotiation_step now st = Ok res
    /\ negotiation_phase (merge_result st res) = "completed"
    /\ agreed_price (merge_result st res) = Some io
    /\ get_is_complete res = true.
Proof.
  intros Hp Hio Hb Hio0 Hb0 Hmb Hle. rewrite (step_brand_considering now st Hp).
  destruct st as [ms b' ct du bo io' ap ph rd ui sid ca la ic].
  cbn in Hio, Hb. subst b' io'. unfold brand_considers_counter.
  cbn [influencer_offer budget negotiation_rounds].
  rewrite Hmb. cbn [bind].
  destruct (Z.eqb_spec io 0) as [?|_]; [done|].
  destruct (Z.eqb_spec b 0) as [?|_]; [done|]. cbn [orb].
  destruct (Z.leb_spec io b) as [_|Hgt].
  - eexists. split; [reflexivity|]. merged. by repeat split.
  - destruct (Z.leb_spec io mb) as [_|Hgt'].
    + eexists. split; [reflexivity|]. merged. by repeat split.
    + lia.
Qed.

(** C6 (as amended): in "brand_considering", with influencer_offer and
    budget both present and non-zero, an influencer_offer that is at most
    the budget (the budget being below 2^1021 in absolute value) completes
    the negotiation with agreed_price equal to the influencer_offer, and so
    does, for a budget between 1 and 2^46, every influencer_offer below
    floor(budget * 115 / 100). *)
Theorem brand_accepts_within_stretch {RT : PyRuntime} :
  (forall now st io b,
     negotiation_phase st = "brand_considering" ->
     influencer_offer st = Some io ->
     budget st = Some b ->
     io <> 0 ->
     b <> 0 ->
     Z.abs b < 2 ^ 1021 ->
     io <= b ->
     exists res,
       process_negotiation_step now st = Ok res
       /\ negotiation_phase (merge_result st res) = "completed"
       /\ agreed_price (merge_result st res) = Some io
       /\ get_is_complete res = true)
  /\ (forall now st io b,
        negotiation_phase st = "brand_considering" ->
        influencer_offer st = Some io ->
        budget st = Some b ->
        io <> 0 ->
        0 < b < 2 ^ 46 ->
        io < b * 115 / 100 ->
        exists res,
          process_negotiation_step now st = Ok res
          /\ negotiation_phase (merge_result st res) = "completed"
          /\ agreed_price (merge_result st res) = Some io
          /\ get_is_complete res = true).
Proof.
  split.
  - intros now st io b Hp Hio Hb Hio0 Hb0 Hrange Hle.
    destruct (stretch_ceiling_total b Hrange) as [mb Hmb].
    apply (brand_accepts_up_to_ceiling now st io b mb); auto.
  - intros now st io b Hp Hio Hb Hio0 Hrange Hlt.
    destruct (stretch_ceiling_near_floor b Hrange) as (mb & Hmb & Hlow & _).
    apply (brand_accepts_up_to_ceiling now st io b mb); auto; lia.
Qed.

(** Budget 50000 and a counter-offer of 55000, inside the stretch. *)
Lemma brand_accepts_within_stretch_witness :
  exists res,
    process_negotiation_step "t2"
      (demo_session "brand_considering" (Some 50000) (Some 50000) (Some 55000) (lit "x"))
    = Ok res
    /\ negotiation_phase
         (merge_result
            (demo_session "brand_considering" (Some 50000) (Some 50000)
               (Some 55000) (lit "x")) res) = "completed"
    /\ agreed_price
         (merge_result
            (demo_session "brand_considering" (Some 50000) (Some 50000)
               (Some 55000) (lit "x")) res) = Some 55000
    /\ get_is_complete res = true.
Proof.
  apply (proj2 brand_accepts_within_stretch "t2"
           (demo_session "brand_considering" (Some 50000) (Some 50000)
              (Some 55000) (lit "x")) 55000 50000).
  - reflexivity.
  - reflexivity.
  - reflexivity.
  - lia.
  - split; [lia | vm_compute; reflexivity].
  - vm_compute. reflexivity.
Defined.

(** C6 as the specification states it fails: a counter-offer of 0 is at
    most the budget, and the step ends in phase "error" with no agreed
    price. *)
Lemma zero_offer_ends_in_error :
  let before := demo_say (lit "0") (demo_open 50000) in
  let after := demo_say (lit "x") before in
  reachable before
  /\ negotiation_phase <$> demo_state before = Some "brand_considering"
  /\ influencer_offer <$> demo_state before = Some (Some 0)
  /\ budget <$> demo_state before = Some (Some 50000)
  /\ 0 <= 50000
  /\ negotiation_phase <$> demo_state after = Some "error"
  /\ agreed_price <$> demo_state after = Some None.
Proof.
  repeat split; try (vm_compute; reflexivity).
  - apply demo_say_reachable, demo_open_reachable.
  - lia.
Qed.

(** ** Reading the influencer's message *)

Lemma forallb_plain s : forallb plainb s = true -> Forall plain s.
Proof.
  induction s as [|c s IH]; cbn [forallb]; [constructor|].
  intros [Hc Hs]%andb_prop. constructor; [|by apply IH].
  unfold plainb in Hc. unfold plain, is_ascii.
  apply orb_prop in Hc as [[? ?]%andb_prop | ?]; [left|right]; lia.
Qed.

Lemma base10_fold (dv : Z -> Z) g : forall acc,
  fold_left (fun a c => 10 * a + dv c) g acc
  = acc * 10 ^ Z.of_nat (length g) + base10 (map dv g).
Proof.
  induction g as [|c g IH]; intros acc.
  - cbn. lia.
  - cbn [fold_left map base10 length]. rewrite IH, length_map.
    rewrite Nat2Z.inj_succ, Z.pow_succ_r by lia. lia.
Qed.

Section Reading.

Context {RT : PyRuntime}.

Lemma is_digit_rupee : is_digit rupee = false.
Proof. unfold is_digit. by rewrite decimal_rupee. Qed.

Lemma digit_run_digits s : Forall (fun c => is_digit c = true) (digit_run s).
Proof.
  induction s as [|c s IH]; cbn [digit_run]; [constructor|].
  destruct (is_digit c) eqn:E; by constructor.
Qed.

(** [digit_run] is a prefix, and what follows it does not start with a
    digit. *)
Lemma digit_run_split s :
  exists post,
    s = digit_run s ++ post
    /\ match post with
       | [] => True
       | c :: _ => is_digit c = false
       end.
Proof.
  induction s as [|c s (post & Hs & Hpost)]; cbn [digit_run].
  - by exists [].
  - destruct (is_digit c) eqn:E.
    + exists post. split; [cbn; by rewrite <- Hs | done].
    + by exists (c :: s).
Qed.

Lemma first_digit_run_head c s :
  is_digit c = true -> first_digit_run (c :: s) = c :: digit_run s.
Proof. intros E. cbn [first_digit_run digit_run]. by rewrite E. Qed.

Lemma nonempty_digit_run_first s g :
  nonempty (digit_run s) = Some g -> nonempty (first_digit_run s) = Some g.
Proof.
  destruct s as [|c s]; [done|]. cbn [digit_run first_digit_run].
  by destruct (is_digit c).
Qed.

(** The regular expression search finds the first run of digits. *)
Lemma search_price_first_run s :
  search_price s = nonempty (first_digit_run s).
Proof.
  induction s as [|c s IH]; [done|].
  cbn [search_price match_price_at].
  destruct (is_digit c) eqn:E.
  - assert ((c =? rupee) = false) as ->.
    { apply Z.eqb_neq. intros ->. by rewrite is_digit_rupee in E. }
    rewrite first_digit_run_head by done.
    cbn [digit_run]. by rewrite E.
  - assert (digit_run (c :: s) = []) as Hnil by (cbn; by rewrite E).
    assert (first_digit_run (c :: s) = first_digit_run s) as ->
      by (cbn; by rewrite E).
    rewrite Hnil. cbn [nonempty].
    destruct (c =? rupee); [|exact IH].
    destruct (nonempty (digit_run s)) as [g|] eqn:Eg; [|exact IH].
    symmetry. by apply nonempty_digit_run_first.
Qed.

(** [first_digit_run s] is the first maximal run of digits of [s]: only
    non-digits come before it, and it is not followed by a digit. *)
Lemma first_digit_run_split s :
  exists pre post,
    s = pre ++ first_digit_run s ++ post
    /\ Forall (fun c => is_digit c = false) pre
    /\ Forall (fun c => is_digit c = true) (first_digit_run s)
    /\ match post with
       | [] => True
       | c :: _ => is_digit c = false
       end.
Proof.
  induction s as [|c s (pre & post & Hs & Hpre & Hrun & Hpost)].
  - exists [], []. by repeat split.
  - destruct (is_digit c) eqn:E.
    + destruct (digit_run_split (c :: s)) as (post' & Hs' & Hpost').
      exists [], post'.
      assert (first_digit_run (c :: s) = digit_run (c :: s)) as ->
        by (cbn; by rewrite E).
      repeat split; [done|constructor|apply digit_run_digits|done].
    + exists (c :: pre), post.
      assert (first_digit_run (c :: s) = first_digit_run s) as ->
        by (cbn; by rewrite E).
      repeat split; [cbn; by rewrite <- Hs|by constructor|done|done].
Qed.

Lemma first_digit_run_nonempty s :
  Exists (fun c => is_digit c = true) s -> first_digit_run s <> [].
Proof.
  induction 1 as [c s E|c s _ IH]; cbn [first_digit_run digit_run].
  - by rewrite E.
  - by destruct (is_digit c).
Qed.

Lemma digits_value_base10 g : digits_value g = base10 (digit_values g).
Proof.
  unfold digits_value, digit_values.
  rewrite (base10_fold (fun c => default 0 (decimal c))). lia.
Qed.

(** [int] on a run of digits: within the limit it is the base-10 value,
    beyond it the [ValueError] of the interpreter. *)
Lemma int_of_digits_within g :
  Z.of_nat (length g) <= max_str_digits ->
  int_of_digits g = Ok (digits_value g).
Proof.
  intros Hlen. unfold int_of_digits. cbn zeta.
  by destruct (Z.ltb_spec max_str_digits (Z.of_nat (length g))); [lia|].
Qed.

Lemma int_of_digits_beyond g :
  max_str_digits < Z.of_nat (length g) ->
  int_of_digits g = Raise (ValueError (int_limit_message (Z.of_nat (length g)))).
Proof.
  intros Hlen. unfold int_of_digits. cbn zeta.
  by destruct (Z.ltb_spec max_str_digits (Z.of_nat (length g))); [|lia].
Qed.

Lemma int_of_digits_ok g n :
  int_of_digits g = Ok n ->
  n = digits_value g /\ Z.of_nat (length g) <= max_str_digits.
Proof.
  unfold int_of_digits. cbn zeta.
  destruct (Z.ltb_spec max_str_digits (Z.of_nat (length g))); [done|].
  by intros [= <-].
Qed.


(** A counter-offer read from the message is never negative. *)
Lemma digits_value_nonneg g : 0 <= digits_value g.
Proof.
  rewrite digits_value_base10. unfold digit_values.
  induction g as [|c g IH]; cbn [map base10]; [done|].
  assert (0 <= default 0 (decimal c)) as Hc.
  { destruct (decimal c) as [d|] eqn:E; cbn; [|done].
    by destruct (decimal_range c d E). }
  assert (0 <= 10 ^ Z.of_nat (length (map (fun c => default 0 (decimal c)) g)))
    by (apply Z.pow_nonneg; lia).
  nia.
Qed.

(** On text made of ASCII and rupee signs every runtime reads what
    [ascii_runtime] reads. *)
Lemma is_digit_plain c :
  plain c -> is_digit c = @is_digit ascii_runtime c.
Proof.
  unfold is_digit. intros [Ha | ->].
  - by rewrite decimal_ascii.
  - by rewrite decimal_rupee.
Qed.

Lemma digit_run_plain s :
  Forall plain s -> digit_run s = @digit_run ascii_runtime s.
Proof.
  induction 1 as [|c s Hc _ IH]; [done|].
  cbn [digit_run]. by rewrite (is_digit_plain c Hc), IH.
Qed.

Lemma search_price_plain s :
  Forall plain s -> search_price s = @search_price ascii_runtime s.
Proof.
  induction 1 as [|c s Hc Hs IH]; [done|].
  cbn [search_price match_price_at].
  rewrite (digit_run_plain s Hs), (digit_run_plain (c :: s)) by by constructor.
  by rewrite IH.
Qed.

Lemma digits_value_plain g :
  Forall is_ascii g -> digits_value g = @digits_value ascii_runtime g.
Proof.
  unfold digits_value. intros Hg.
  assert (forall acc,
            fold_left (fun a c => 10 * a + default 0 (decimal c)) g acc
            = fold_left (fun a c => 10 * a + default 0 (ascii_decimal c)) g acc)
    as Hfold; [|apply Hfold].
  induction Hg as [|c g Hc _ IH]; intros acc; [done|].
  cbn [fold_left]. rewrite IH. by rewrite (decimal_ascii c Hc).
Qed.

Lemma says_accept_plain s :
  Forall plain s -> says_accept s = @says_accept ascii_runtime s.
Proof. intros Hs. unfold says_accept. by rewrite (lower_plain s Hs). Qed.

End Reading.

(** ** Acceptance, counter-offer and final decision *)

Lemma record_input_fields t message st :
  let st' := record_input t message st in
  user_input st' = message
  /\ last_activity st' = t
  /\ engine_fields st' = engine_fields st
  /\ budget st' = budget st
  /\ is_complete st' = is_complete st.
Proof. by destruct st. Qed.

Section Branches.

Context {RT : PyRuntime}.

Lemma accept_branch now st b :
  waiting (negotiation_phase st) ->
  says_accept (user_input st) = true ->
  brand_offer st = Some b ->
  exists res,
    process_negotiation_step now st = Ok res
    /\ negotiation_phase (merge_result st res) = "completed"
    /\ agreed_price (merge_result st res) = Some b
    /\ influencer_offer (merge_result st res) = influencer_offer st
    /\ get_is_complete res = true.
Proof.
  intros Hp Hacc Hbo. rewrite (step_waiting now st Hp).
  destruct st as [ms bu ct du bo io ap ph rd ui sid ca la ic].
  cbn in Hacc, Hbo. subst bo. unfold handle_influencer_response.
  cbn [brand_offer user_input negotiation_rounds]. rewrite Hacc.
  cbn [fmt bind]. eexists. split; [reflexivity|]. merged. by repeat split.
Qed.

Lemma counter_branch now st g :
  waiting (negotiation_phase st) ->
  says_accept (user_input st) = false ->
  search_price (user_input st) = Some g ->
  Z.of_nat (length g) <= max_str_digits ->
  exists res,
    process_negotiation_step now st = Ok res
    /\ influencer_offer (merge_result st res) = Some (digits_value g)
    /\ negotiation_phase (merge_result st res) = "brand_considering"
    /\ agreed_price (merge_result st res) = agreed_price st.
Proof.
  intros Hp Hacc Hg Hlen. rewrite (step_waiting now st Hp).
  destruct st as [ms bu ct du bo io ap ph rd ui sid ca la ic].
  cbn in Hacc, Hg. unfold handle_influencer_response.
  cbn [brand_offer user_input negotiation_rounds]. rewrite Hacc, Hg.
  rewrite (int_of_digits_within g Hlen). cbn [bind].
  eexists. split; [reflexivity|]. merged. by repeat split.
Qed.

(** A run of digits beyond the limit: [int] raises inside the handler. *)
Lemma long_run_branch now st g :
  waiting (negotiation_phase st) ->
  says_accept (user_input st) = false ->
  search_price (user_input st) = Some g ->
  max_str_digits < Z.of_nat (length g) ->
  process_negotiation_step now st
  = Raise (ValueError (int_limit_message (Z.of_nat (length g)))).
Proof.
  intros Hp Hacc Hg Hlen. rewrite (step_waiting now st Hp).
  unfold handle_influencer_response. cbn zeta. rewrite Hacc, Hg.
  by rewrite (int_of_digits_beyond g Hlen).
Qed.

Lemma final_branch now st b :
  negotiation_phase st = "final_decision" ->
  brand_offer st = Some b ->
  exists res,
    process_negotiation_step now st = Ok res
    /\ get_is_complete res = true
    /\ if says_accept (user_input st)
       then negotiation_phase (merge_result st res) = "completed"
            /\ agreed_price (merge_result st res) = Some b
       else negotiation_phase (merge_result st res) = "failed"
            /\ agreed_price (merge_result st res) = None.
Proof.
  intros Hp Hbo. rewrite (step_final_decision now st Hp).
  destruct st as [ms bu ct du bo io ap ph rd ui sid ca la ic].
  cbn in Hbo. subst bo. unfold handle_final_decision.
  cbn [brand_offer user_input negotiation_rounds fmt bind].
  destruct (says_accept ui); eexists; (split; [reflexivity|]); merged;
    by repeat split.
Qed.

(** The session [/start-negotiation] stores for a non-zero budget. *)
Lemma opening_offer sid t_created t_last t_step request :
  req_budget request <> 0 ->
  req_campaign_type request <> None ->
  req_duration request <> None ->
  exists res,
    process_negotiation_step t_step (initial_state sid t_created t_last request)
    = Ok res
    /\ let st := merge_result (initial_state sid t_created t_last request) res in
       negotiation_phase st = "waiting_for_influencer_response"
       /\ brand_offer st = Some (req_budget request)
       /\ budget st = Some (req_budget request)
       /\ agreed_price st = None
       /\ negotiation_rounds st = 1.
Proof.
  intros Hb Hct Hdu. destruct request as [b [ct|] [du|]]; try done.
  cbn in Hb. unfold process_negotiation_step, brand_initial_offer.
  cbn [initial_state negotiation_phase budget campaign_type duration
       negotiation_rounds String.eqb Ascii.eqb Bool.eqb replace_ bind
       req_budget req_campaign_type req_duration].
  destruct (Z.eqb_spec b 0) as [?|_]; [done|].
  eexists. split; [reflexivity|]. merged. by repeat split.
Qed.

(** A terminal phase has no handler: every later turn leaves the session
    in phase "error". *)
Lemma terminal_absorbs t_input t_step message st :
  terminal (negotiation_phase st) ->
  let st' := respond_state t_input t_step message st in
  negotiation_phase st' = "error"
  /\ agreed_price st' = agreed_price st
  /\ negotiation_rounds st' = negotiation_rounds st
  /\ brand_offer st' = brand_offer st.
Proof.
  intros Ht. unfold respond_state.
  rewrite step_unhandled.
  - by destruct st.
  - assert (negotiation_phase (record_input t_input message st) = negotiation_phase st)
      as -> by by destruct st.
    unfold handled, terminal in *. intros Hh.
    destruct Ht as [E|[E|E]]; rewrite E in Hh; intuition discriminate.
Qed.

End Branches.

Lemma terminal_play {RT : PyRuntime} turns : forall st,
  terminal (negotiation_phase st) ->
  terminal (negotiation_phase (play st turns))
  /\ agreed_price (play st turns) = agreed_price st.
Proof.
  induction turns as [|t turns IH]; intros st Ht; [done|].
  change (play st (t :: turns))
    with (play (respond_state (turn_t_input t) (turn_t_step t) (turn_message t) st) turns).
  destruct (terminal_absorbs (turn_t_input t) (turn_t_step t) (turn_message t) st Ht)
    as (Hph & Hap & _).
  destruct (IH (respond_state (turn_t_input t) (turn_t_step t) (turn_message t) st))
    as [Ht' Hap'].
  - rewrite Hph. unfold terminal. tauto.
  - split; [done | by rewrite Hap'].
Qed.

(** ** Exceptions and the error phase *)





(** ** What the influencer's message decides *)

(** C5: in "waiting_for_influencer_response" and "waiting_for_decision",
    an input whose lowercase form contains "accept" or "yes" completes the
    negotiation with agreed_price equal to the current brand_offer; this
    holds also when the input contains a number the counter-offer pattern
    would match (the influencer_offer is then left as it was); and replying
    "yes please" to the opening offer of a session started with a non-zero
    budget leaves the stored session completed at agreed_price = budget. *)
Theorem accept_takes_brand_offer {RT : PyRuntime} :
  (forall now st b,
     waiting (negotiation_phase st) ->
     says_accept (user_input st) = true ->
     brand_offer st = Some b ->
     exists res,
       process_negotiation_step now st = Ok res
       /\ negotiation_phase (merge_result st res) = "completed"
       /\ agreed_price (merge_result st res) = Some b
       /\ influencer_offer (merge_result st res) = influencer_offer st
       /\ get_is_complete res = true)
  /\ (forall now st b g,
        waiting (negotiation_phase st) ->
        says_accept (user_input st) = true ->
        search_price (user_input st) = Some g ->
        brand_offer st = Some b ->
        exists res,
          process_negotiation_step now st = Ok res
          /\ negotiation_phase (merge_result st res) = "completed"
          /\ agreed_price (merge_result st res) = Some b
          /\ influencer_offer (merge_result st res) = influencer_offer st)
  /\ (forall sid t_created t_last t_step t_entry request sessions t_input t_step',
        req_budget request <> 0 ->
        req_campaign_type request <> None ->
        req_duration request <> None ->
        let opened :=
          (start_negotiation sid t_created t_last t_step t_entry request sessions).1 in
        let answered :=
          (respond_to_negotiation t_input t_step'
             {| req_session_id := sid; req_message := lit "yes please" |} opened).1 in
        exists s,
          answered !! sid = Some s
          /\ agreed_price (state s) = Some (req_budget request)
          /\ negotiation_phase (state s) = "completed").
Proof.
  split; [exact accept_branch|]. split.
  - intros now st b g Hp Hacc _ Hbo.
    destruct (accept_branch now st b Hp Hacc Hbo) as (res & ? & ? & ? & ? & _).
    by exists res.
  - intros sid t_created t_last t_step t_entry request sessions t_input t_step'
      Hb Hct Hdu opened answered. subst opened answered.
    destruct (opening_offer sid t_created t_last t_step request Hb Hct Hdu)
      as (res0 & E0 & Hph & Hbo & _).
    unfold start_negotiation. rewrite E0. cbn [fst].
    rewrite respond_store. cbn [req_session_id req_message].
    rewrite lookup_insert_eq. eexists. split; [apply lookup_insert_eq|].
    cbn [state]. unfold respond_state.
    set (st1 := merge_result (initial_state sid t_created t_last request) res0) in *.
    destruct (accept_branch t_step' (record_input t_input (lit "yes please") st1)
                (req_budget request)) as (res & -> & Hc & Ha & _).
    + left. exact Hph.
    + change (user_input (record_input t_input (lit "yes please") st1))
        with (lit "yes please").
      rewrite says_accept_plain; [reflexivity|].
      apply forallb_plain. reflexivity.
    + exact Hbo.
    + done.
Qed.

(** An input with both an accept keyword and a number, in
    "waiting_for_decision" at brand_offer 50000. *)
Lemma accept_takes_brand_offer_witness :
  exists res,
    process_negotiation_step "t2"
      (demo_session "waiting_for_decision" (Some 50000) (Some 50000) (Some 0)
         (lit "I ACCEPT 70000"))
    = Ok res
    /\ negotiation_phase
         (merge_result
            (demo_session "waiting_for_decision" (Some 50000) (Some 50000) (Some 0)
               (lit "I ACCEPT 70000")) res) = "completed"
    /\ agreed_price
         (merge_result
            (demo_session "waiting_for_decision" (Some 50000) (Some 50000) (Some 0)
               (lit "I ACCEPT 70000")) res) = Some 50000
    /\ influencer_offer
         (merge_result
            (demo_session "waiting_for_decision" (Some 50000) (Some 50000) (Some 0)
               (lit "I ACCEPT 70000")) res) = Some 0.
Proof.
  apply (proj1 (proj2 accept_takes_brand_offer) "t2"
           (demo_session "waiting_for_decision" (Some 50000) (Some 50000) (Some 0)
              (lit "I ACCEPT 70000")) 50000 (lit "70000")).
  - right. reflexivity.
  - vm_compute. reflexivity.
  - vm_compute. reflexivity.
  - reflexivity.
Defined.

(** C7 (as amended): in the waiting phases, when the lowercase input
    contains neither "accept" nor "yes" and the input contains a decimal
    digit, the first maximal run of decimal digits of the input (read left
    to right; a rupee sign before the run plays no part) is what [int] is
    given.  When the run has at most 4300 digits the step stores its
    base-10 value as influencer_offer and moves to "brand_considering";
    when it has more, the step raises the interpreter's ValueError for an
    over-long integer string.  The input "I want (rupee sign)60000" gives
    influencer_offer 60000. *)
Theorem counter_offer_is_first_digit_run {RT : PyRuntime} :
  (forall now st,
     waiting (negotiation_phase st) ->
     says_accept (user_input st) = false ->
     Exists (fun c => is_digit c = true) (user_input st) ->
     if max_str_digits <? run_digits (user_input st)
     then process_negotiation_step now st
          = Raise (ValueError (int_limit_message (run_digits (user_input st))))
     else exists res,
         process_negotiation_step now st = Ok res
         /\ influencer_offer (merge_result st res)
            = Some (base10 (digit_values (first_digit_run (user_input st))))
         /\ negotiation_phase (merge_result st res) = "brand_considering")
  /\ (forall s,
        exists pre post,
          s = pre ++ first_digit_run s ++ post
          /\ Forall (fun c => is_digit c = false) pre
          /\ Forall (fun c => is_digit c = true) (first_digit_run s)
          /\ match post with
             | [] => True
             | c :: _ => is_digit c = false
             end)
  /\ (forall now st,
        waiting (negotiation_phase st) ->
        user_input st = lit "I want " ++ rupee :: lit "60000" ->
        exists res,
          process_negotiation_step now st = Ok res
          /\ influencer_offer (merge_result st res) = Some 60000
          /\ negotiation_phase (merge_result st res) = "brand_considering").
Proof.
  split; [|split; [exact first_digit_run_split|]].
  - intros now st Hp Hacc Hdigit. unfold run_digits.
    pose proof (search_price_first_run (user_input st)) as Hsearch.
    pose proof (first_digit_run_nonempty _ Hdigit) as Hne.
    destruct (first_digit_run (user_input st)) as [|c g] eqn:Erun; [done|].
    cbn [nonempty] in Hsearch.
    destruct (Z.ltb_spec max_str_digits (Z.of_nat (length (c :: g)))) as [Hlen|Hlen].
    + by apply long_run_branch.
    + destruct (counter_branch now st (c :: g) Hp Hacc Hsearch Hlen)
        as (res & Hres & Hio & Hph & _).
      exists res. by rewrite <- digits_value_base10.
  - intros now st Hp Hui.
    assert (Forall plain (user_input st)) as Hplain
      by (rewrite Hui; apply forallb_plain; reflexivity).
    destruct (counter_branch now st (lit "60000") Hp) as (res & Hres & Hio & Hph & _).
    + rewrite says_accept_plain, Hui by done. reflexivity.
    + rewrite search_price_plain, Hui by done. reflexivity.
    + vm_compute. discriminate.
    + exists res. split; [done|]. split; [|done].
      rewrite Hio, digits_value_plain; [reflexivity|].
      let l := eval vm_compute in (lit "60000") in change (lit "60000") with l.
      repeat (apply List.Forall_cons; [unfold is_ascii; lia|]).
      apply List.Forall_nil.
Qed.

(** The opening offer of 50000 answered with "I want (rupee sign)60000". *)
Lemma counter_offer_is_first_digit_run_witness :
  exists res,
    process_negotiation_step "t2"
      (demo_session "waiting_for_influencer_response" (Some 50000) (Some 50000)
         (Some 0) (lit "I want " ++ rupee :: lit "60000"))
    = Ok res
    /\ influencer_offer
         (merge_result
            (demo_session "waiting_for_influencer_response" (Some 50000)
               (Some 50000) (Some 0) (lit "I want " ++ rupee :: lit "60000")) res)
       = Some 60000
    /\ negotiation_phase
         (merge_result
            (demo_session "waiting_for_influencer_response" (Some 50000)
               (Some 50000) (Some 0) (lit "I want " ++ rupee :: lit "60000")) res)
       = "brand_considering".
Proof.
  destruct (proj1 counter_offer_is_first_digit_run "t2"
              (demo_session "waiting_for_influencer_response" (Some 50000)
                 (Some 50000) (Some 0) (lit "I want " ++ rupee :: lit "60000")))
    as (res & Hres & Hio & Hph).
  - left. reflexivity.
  - vm_compute. reflexivity.
  - let l := eval vm_compute in (lit "I want " ++ rupee :: lit "60000") in
    change (lit "I want " ++ rupee :: lit "60000") with l.
    cbn [demo_session user_input].
    do 8 apply List.Exists_cons_tl. apply List.Exists_cons_hd. reflexivity.
  - exists res. split; [exact Hres|]. split; [|exact Hph].
    rewrite Hio. vm_compute. reflexivity.
Defined.

(** C7 as the specification states it fails on a run of more than 4300
    digits: a message of 4301 nines, sent in reply to the opening offer,
    has no accept keyword and holds digits, yet the step raises, [/respond]
    answers 500, and the session stays in its waiting phase with the
    influencer_offer it had. *)
Lemma long_digit_run_raises :
  let message := repeat 57 (Z.to_nat 4301) in
  let overlong :=
    ("Exceeds the limit (4300 digits) for integer string conversion: "
     ++ "value has 4301 digits; "
     ++ "use sys.set_int_max_str_digits() to increase the limit")%string in
  says_accept message = false
  /\ Exists (fun c => is_digit c = true) message
  /\ process_negotiation_step "t2"
       (demo_session "waiting_for_influencer_response" (Some 50000) (Some 50000)
          (Some 0) message)
     = Raise (ValueError overlong)
  /\ (respond_to_negotiation "t1" "t2"
        {| req_session_id := "s1"; req_message := message |} (demo_open 50000)).2
     = HTTPException 500 overlong
  /\ negotiation_phase <$> demo_state (demo_say message (demo_open 50000))
     = Some "waiting_for_influencer_response"
  /\ influencer_offer <$> demo_state (demo_say message (demo_open 50000))
     = Some (Some 0).
Proof.
  cbv zeta. split; [vm_compute; reflexivity|]. split.
  - apply List.Exists_exists. exists 57. split; [|reflexivity].
    change (Z.to_nat 4301) with (S (Z.to_nat 4300)). by left.
  - repeat split; vm_compute; reflexivity.
Qed.

(** C8: in "final_decision", with brand_offer present, an input whose
    lowercase form contains neither "accept" nor "yes" (such as
    "no thanks") ends the negotiation in phase "failed" with agreed_price
    null, and one that does completes it with agreed_price equal to
    brand_offer; either way the reply is flagged complete, the new phase is
    one of the terminal phases, and whatever turns follow the session stays
    in a terminal phase with the same agreed_price. *)
Theorem final_decision_outcomes {RT : PyRuntime} :
  (forall now st b,
     negotiation_phase st = "final_decision" ->
     brand_offer st = Some b ->
     exists res,
       process_negotiation_step now st = Ok res
       /\ get_is_complete res = true
       /\ (if says_accept (user_input st)
           then negotiation_phase (merge_result st res) = "completed"
                /\ agreed_price (merge_result st res) = Some b
           else negotiation_phase (merge_result st res) = "failed"
                /\ agreed_price (merge_result st res) = None)
       /\ forall turns,
           terminal (negotiation_phase (play (merge_result st res) turns))
           /\ agreed_price (play (merge_result st res) turns)
              = agreed_price (merge_result st res))
  /\ says_accept (lit "no thanks") = false
  /\ says_accept (lit "Yes, I accept") = true.
Proof.
  split.
  - intros now st b Hp Hbo.
    destruct (final_branch now st b Hp Hbo) as (res & Hres & Hic & Hcases).
    exists res. repeat split; try done.
    + apply terminal_play. unfold terminal.
      destruct (says_accept (user_input st)); destruct Hcases as [-> _]; tauto.
    + apply terminal_play. unfold terminal.
      destruct (says_accept (user_input st)); destruct Hcases as [-> _]; tauto.
  - split; (rewrite says_accept_plain; [reflexivity|]);
      apply forallb_plain; reflexivity.
Qed.

(** Declining the final offer of 57499 with "no thanks". *)
Lemma final_decision_outcomes_witness :
  exists res,
    process_negotiation_step "t2"
      (demo_session "final_decision" (Some 50000) (Some 57499) (Some 60000)
         (lit "no thanks"))
    = Ok res
    /\ negotiation_phase
         (merge_result
            (demo_session "final_decision" (Some 50000) (Some 57499) (Some 60000)
               (lit "no thanks")) res) = "failed"
    /\ agreed_price
         (merge_result
            (demo_session "final_decision" (Some 50000) (Some 57499) (Some 60000)
               (lit "no thanks")) res) = None.
Proof.
  destruct (proj1 final_decision_outcomes "t2"
              (demo_session "final_decision" (Some 50000) (Some 57499) (Some 60000)
                 (lit "no thanks")) 57499 eq_refl eq_refl)
    as (res & Hres & _ & Hcases & _).
  exists res. split; [exact Hres|]. exact Hcases.
Defined.

(** ** A step that raises inside [/respond] *)

(** C10: when the step raises during [/respond], the route answers 500
    with the exception's text; the stored session keeps its phase, rounds,
    offers, agreed price and messages, its user_input and last_activity are
    the new message and the time the input was recorded, and its phase is
    not "error". *)
Theorem raising_step_keeps_engine_fields {RT : PyRuntime}
    t_input t_step request sessions s e :
  sessions !! req_session_id request = Some s ->
  process_negotiation_step t_step
    (record_input t_input (req_message request) (state s)) = Raise e ->
  exists s',
    respond_to_negotiation t_input t_step request sessions
    = (<[req_session_id request := s']> sessions, HTTPException 500 (str_exn e))
    /\ engine_fields (state s') = engine_fields (state s)
    /\ user_input (state s') = req_message request
    /\ last_activity (state s') = t_input
    /\ negotiation_phase (state s') <> "error".
Proof.
  intros Hs Hraise. unfold respond_to_negotiation. rewrite Hs, Hraise.
  eexists. split; [reflexivity|]. cbn [state].
  destruct (record_input_fields t_input (req_message request) (state s))
    as (Hui & Hla & Hef & _).
  repeat split; try done.
  intros Herr.
  rewrite step_unhandled in Hraise; [discriminate|].
  rewrite Herr. unfold handled. intuition discriminate.
Qed.

(** A session opened with budget 2^1024 and countered with 5: the next
    step cannot convert the budget to a float. *)
Lemma raising_step_keeps_engine_fields_witness :
  let sessions := demo_say (lit "5") (demo_open (2 ^ 1024)) in
  exists s s',
    sessions !! "s1" = Some s
    /\ negotiation_phase (state s) = "brand_considering"
    /\ respond_to_negotiation "t1" "t2"
         {| req_session_id := "s1"; req_message := lit "x" |} sessions
       = (<["s1" := s']> sessions,
          HTTPException 500 "int too large to convert to float")
    /\ engine_fields (state s') = engine_fields (state s)
    /\ user_input (state s') = lit "x"
    /\ last_activity (state s') = "t1"
    /\ negotiation_phase (state s') <> "error".
Proof.
  cbv zeta.
  assert (exists s, demo_say (lit "5") (demo_open (2 ^ 1024)) !! "s1" = Some s
                    /\ negotiation_phase (state s) = "brand_considering"
                    /\ process_negotiation_step "t2"
                         (record_input "t1" (lit "x") (state s))
                       = Raise (OverflowError "int too large to convert to float"))
    as (s & Hs & Hph & Hraise).
  { eexists. split; [vm_compute; reflexivity|]. split; vm_compute; reflexivity. }
  destruct (raising_step_keeps_engine_fields "t1" "t2"
              {| req_session_id := "s1"; req_message := lit "x" |}
              (demo_say (lit "5") (demo_open (2 ^ 1024))) s
              (OverflowError "int too large to convert to float") Hs Hraise)
    as (s' & Hres & Hrest).
  exists s, s'. split; [exact Hs|]. split; [exact Hph|]. split; [exact Hres|].
  exact Hrest.
Defined.

(** * Further properties of the code *)

(** ** Each handler, branch by branch *)

Section Details.

Context {RT : PyRuntime}.

Lemma brand_initial_offer_detail now st res :
  brand_initial_offer now st = Ok res ->
  let st' := merge_result st res in
  negotiation_phase st' = "waiting_for_influencer_response"
  /\ (exists m, messages st' = [m])
  /\ get_is_complete res = false
  /\ (exists b, budget st = Some b /\ b <> 0 /\ brand_offer st' = Some b)
  /\ influencer_offer st' = influencer_offer st
  /\ agreed_price st' = agreed_price st
  /\ is_complete st' = is_complete st.
Proof.
  destruct st as [ms b ct du bo io ap ph rd ui sid ca la ic].
  unfold brand_initial_offer, bind, replace_.
  cbn [budget campaign_type duration negotiation_rounds].
  intros H. split_step. merged. cbn [get_is_complete].
  split; [done|]. split; [eauto|]. split; [done|]. split; [|done].
  eexists. split; [reflexivity|]. split; [|done]. by apply Z.eqb_neq.
Qed.

Lemma handle_influencer_response_detail now st res :
  handle_influencer_response now st = Ok res ->
  let st' := merge_result st res in
  (exists m, messages st' = [m])
  /\ brand_offer st' = brand_offer st
  /\ ((negotiation_phase st' = "completed"
       /\ get_is_complete res = true
       /\ is_complete st' = Some true
       /\ says_accept (user_input st) = true
       /\ agreed_price st' = brand_offer st
       /\ brand_offer st <> None
       /\ influencer_offer st' = influencer_offer st)
      \/ (negotiation_phase st' = "brand_considering"
          /\ get_is_complete res = false
          /\ is_complete st' = is_complete st
          /\ says_accept (user_input st) = false
          /\ (exists g, search_price (user_input st) = Some g
                        /\ Z.of_nat (length g) <= max_str_digits
                        /\ influencer_offer st' = Some (digits_value g))
          /\ agreed_price st' = agreed_price st)
      \/ (negotiation_phase st' = "waiting_for_decision"
          /\ get_is_complete res = false
          /\ is_complete st' = is_complete st
          /\ says_accept (user_input st) = false
          /\ search_price (user_input st) = None
          /\ influencer_offer st' = influencer_offer st
          /\ agreed_price st' = agreed_price st)).
Proof.
  destruct st as [ms b ct du bo io ap ph rd ui sid ca la ic].
  unfold handle_influencer_response, bind, replace_, fmt.
  cbn [brand_offer campaign_type duration negotiation_rounds user_input].
  intros H. split_step; merged; cbn [get_is_complete];
    try match goal with
      | E : int_of_digits _ = Ok _ |- _ => apply int_of_digits_ok in E as [-> ?]
      end;
    (split; [eauto|]); (split; [done|]);
    first [ left; by repeat split
          | right; left; by (repeat split; eauto)
          | right; right; by repeat split ].
Qed.

Lemma brand_considers_counter_detail now st res :
  brand_considers_counter now st = Ok res ->
  let st' := merge_result st res in
  (res = [ k_negotiation_phase "error" ]
   /\ falsy (influencer_offer st) || falsy (budget st) = true)
  \/ (exists io b mb,
        influencer_offer st = Some io /\ budget st = Some b
        /\ io <> 0 /\ b <> 0 /\ stretch_ceiling b = Ok mb
        /\ (exists m, messages st' = [m])
        /\ influencer_offer st' = Some io
        /\ (((io <= b \/ io <= mb)
             /\ negotiation_phase st' = "completed"
             /\ get_is_complete res = true
             /\ is_complete st' = Some true
             /\ agreed_price st' = Some io
             /\ brand_offer st' = brand_offer st)
            \/ (b < io /\ mb < io
                /\ negotiation_phase st' = "final_decision"
                /\ get_is_complete res = false
                /\ is_complete st' = is_complete st
                /\ agreed_price st' = agreed_price st
                /\ brand_offer st' = Some mb
                /\ get_options res
                   = [lit "Accept final offer"; lit "Decline offer"]))).
Proof.
  destruct st as [ms b ct du bo io ap ph rd ui sid ca la ic].
  unfold brand_considers_counter, bind, falsy.
  cbn [budget influencer_offer negotiation_rounds].
  intros H.
  destruct io as [io|]; [|left; by injection H as <-].
  destruct b as [b|]; [|left; injection H as <-; split; [done|apply orb_true_r]].
  destruct (Z.eqb_spec io 0) as [->|Hio]; [left; by injection H as <-|].
  destruct (Z.eqb_spec b 0) as [->|Hb]; [left; by injection H as <-|].
  cbn [orb] in H. destruct (stretch_ceiling b) as [mb|e] eqn:Emb; [|done].
  right. exists io, b, mb.
  destruct (Z.leb_spec io b) as [Hle|Hgt].
  - injection H as <-. merged. cbn [get_is_complete].
    repeat split; eauto. left. repeat split; auto.
  - destruct (Z.leb_spec io mb) as [Hle'|Hgt'].
    + injection H as <-. merged. cbn [get_is_complete].
      repeat split; eauto. left. repeat split; auto.
    + injection H as <-. merged. cbn [get_is_complete get_options].
      repeat split; eauto. right. repeat split; auto.
Qed.

Lemma handle_final_decision_detail now st res :
  handle_final_decision now st = Ok res ->
  let st' := merge_result st res in
  (exists m, messages st' = [m])
  /\ get_is_complete res = true
  /\ is_complete st' = Some true
  /\ brand_offer st' = brand_offer st
  /\ influencer_offer st' = influencer_offer st
  /\ brand_offer st <> None
  /\ if says_accept (user_input st)
     then negotiation_phase st' = "completed"
          /\ agreed_price st' = brand_offer st
     else negotiation_phase st' = "failed" /\ agreed_price st' = None.
Proof.
  destruct st as [ms b ct du bo io ap ph rd ui sid ca la ic].
  unfold handle_final_decision, bind, fmt.
  cbn [brand_offer negotiation_rounds user_input].
  intros H. destruct (says_accept ui); split_step; merged;
    cbn [get_is_complete]; repeat split; eauto.
Qed.

Lemma unhandled_detail st :
  let res := [ k_negotiation_phase "error"; k_bot_response generic_failure ] in
  let st' := merge_result st res in
  negotiation_phase st' = "error"
  /\ messages st' = messages st
  /\ brand_offer st' = brand_offer st
  /\ influencer_offer st' = influencer_offer st
  /\ agreed_price st' = agreed_price st
  /\ negotiation_rounds st' = negotiation_rounds st
  /\ is_complete st' = is_complete st
  /\ last_activity st' = last_activity st
  /\ user_input st' = user_input st.
Proof. by destruct st. Qed.

Lemma bare_error_detail st :
  let st' := merge_result st [ k_negotiation_phase "error" ] in
  negotiation_phase st' = "error"
  /\ messages st' = messages st
  /\ brand_offer st' = brand_offer st
  /\ influencer_offer st' = influencer_offer st
  /\ agreed_price st' = agreed_price st
  /\ negotiation_rounds st' = negotiation_rounds st
  /\ is_complete st' = is_complete st
  /\ last_activity st' = last_activity st
  /\ user_input st' = user_input st.
Proof. by destruct st. Qed.

End Details.

(** ** Invariants of the store *)

(** A property of the state that the opening step establishes and that
    recording an input and merging a step keep holds of every session of
    every reachable store. *)
Lemma reachable_invariant {RT : PyRuntime} (P : NegotiationState -> Prop) :
  (forall sid t_created t_last t_step request res,
     process_negotiation_step t_step (initial_state sid t_created t_last request)
     = Ok res ->
     P (merge_result (initial_state sid t_created t_last request) res)) ->
  (forall t message st, P st -> P (record_input t message st)) ->
  (forall now st res,
     P st -> process_negotiation_step now st = Ok res -> P (merge_result st res)) ->
  forall sessions,
    reachable sessions ->
    forall sid s, sessions !! sid = Some s -> P (state s).
Proof.
  intros Hstart Hrecord Hstep sessions Hr.
  induction Hr as [|sid0 t1 t2 t3 t4 request sessions _ IH
                  |t1 t2 request sessions _ IH
                  |t1 request sessions _ IH
                  |t2 sid0 sessions _ IH
                  |sid0 sessions _ IH];
    intros sid s Hs.
  - by rewrite lookup_empty in Hs.
  - unfold start_negotiation in Hs.
    destruct (process_negotiation_step _ _) eqn:E; [|by eapply IH].
    cbn [fst] in Hs. destruct (decide (sid0 = sid)) as [->|Hne].
    + rewrite lookup_insert_eq in Hs. injection Hs as <-. cbn [state].
      eapply Hstart. exact E.
    + rewrite lookup_insert_ne in Hs by done. by eapply IH.
  - rewrite respond_store in Hs.
    destruct (sessions !! req_session_id request) as [s0|] eqn:E0; [|by eapply IH].
    destruct (decide (req_session_id request = sid)) as [<-|Hne].
    + rewrite lookup_insert_eq in Hs. injection Hs as <-. cbn [state].
      unfold respond_state.
      pose proof (Hrecord t1 (req_message request) _ (IH _ _ E0)) as Hrec.
      destruct (process_negotiation_step _ _) eqn:E; [|done].
      by eapply Hstep.
    + rewrite lookup_insert_ne in Hs by done. by eapply IH.
  - unfold respond_stream_record in Hs.
    destruct (sessions !! req_session_id request) as [s0|] eqn:E0; [|by eapply IH].
    destruct (decide (req_session_id request = sid)) as [<-|Hne].
    + rewrite lookup_insert_eq in Hs. injection Hs as <-. cbn [state].
      apply Hrecord. by eapply IH.
    + rewrite lookup_insert_ne in Hs by done. by eapply IH.
  - unfold respond_stream_generate in Hs.
    destruct (sessions !! sid0) as [s0|] eqn:E0; [|by eapply IH].
    destruct (process_negotiation_step t2 (state s0)) eqn:E; [|by eapply IH].
    destruct (decide (sid0 = sid)) as [->|Hne].
    + rewrite lookup_insert_eq in Hs. injection Hs as <-. cbn [state].
      eapply Hstep; [by eapply IH | exact E].
    + rewrite lookup_insert_ne in Hs by done. by eapply IH.
  - unfold end_session in Hs.
    destruct (sessions !! sid0) eqn:E0; cbn [fst] in Hs; [|by eapply IH].
    destruct (decide (sid0 = sid)) as [->|Hne].
    + by rewrite lookup_delete_eq in Hs.
    + rewrite lookup_delete_ne in Hs by done. by eapply IH.
Qed.

Lemma initial_step {RT : PyRuntime} sid t_created t_last t_step request :
  process_negotiation_step t_step (initial_state sid t_created t_last request)
  = brand_initial_offer t_step (initial_state sid t_created t_last request).
Proof. reflexivity. Qed.

Lemma next_phases_unhandled ph : ~ handled ph -> next_phases ph = [ "error" ].
Proof.
  intros Hn. unfold next_phases, handled in *.
  destruct (String.eqb_spec ph "initial"); [tauto|].
  destruct (String.eqb_spec ph "waiting_for_influencer_response"); [tauto|].
  destruct (String.eqb_spec ph "waiting_for_decision"); [tauto|].
  destruct (String.eqb_spec ph "brand_considering"); [tauto|].
  destruct (String.eqb_spec ph "final_decision"); [tauto|]. done.
Qed.

(** X1: the phase after a step is one the table [next_phases] lists for the
    phase before it. *)
Theorem phase_transition_table {RT : PyRuntime} now st res :
  process_negotiation_step now st = Ok res ->
  In (negotiation_phase (merge_result st res))
     (next_phases (negotiation_phase st)).
Proof.
  intros H.
  destruct (step_dispatch now st)
    as [[Hp E]|[[Hp E]|[[Hp E]|[[Hp E]|[Hp E]]]]]; rewrite E in H.
  - apply brand_initial_offer_detail in H as (Hph & _).
    rewrite Hph, Hp. cbn. tauto.
  - apply handle_influencer_response_detail in H
      as (_ & _ & [(Hph & _)|[(Hph & _)|(Hph & _)]]);
      rewrite Hph; destruct Hp as [-> | ->]; cbn; tauto.
  - apply brand_considers_counter_detail in H
      as [[-> _]|(io & b & mb & _ & _ & _ & _ & _ & _ & _
                  & [(_ & Hph & _)|(_ & _ & Hph & _)])].
    + destruct (bare_error_detail st) as (-> & _). rewrite Hp. cbn. tauto.
    + rewrite Hph, Hp. cbn. tauto.
    + rewrite Hph, Hp. cbn. tauto.
  - apply handle_final_decision_detail in H as (_ & _ & _ & _ & _ & _ & Hcases).
    rewrite Hp. destruct (says_accept _); destruct Hcases as [-> _]; cbn; tauto.
  - injection H as <-. destruct (unhandled_detail st) as (-> & _).
    rewrite next_phases_unhandled by done. cbn. tauto.
Qed.

(** The table at a counter-offer above the ceiling. *)
Lemma phase_transition_table_witness :
  exists res,
    process_negotiation_step "t2"
      (demo_session "brand_considering" (Some 50000) (Some 50000) (Some 60000) (lit "x"))
    = Ok res
    /\ In (negotiation_phase
             (merge_result
                (demo_session "brand_considering" (Some 50000) (Some 50000)
                   (Some 60000) (lit "x")) res))
          [ "error"; "completed"; "final_decision" ].
Proof.
  eexists. split; [vm_compute; reflexivity|].
  apply (phase_transition_table "t2"
           (demo_session "brand_considering" (Some 50000) (Some 50000)
              (Some 60000) (lit "x"))).
  vm_compute. reflexivity.
Defined.

(** X2: a step's result carries the completion flag exactly when it moves
    the session to "completed" or "failed". *)
Theorem completion_flag_marks_the_end {RT : PyRuntime} now st res :
  process_negotiation_step now st = Ok res ->
  get_is_complete res = true
  <-> negotiation_phase (merge_result st res) = "completed"
      \/ negotiation_phase (merge_result st res) = "failed".
Proof.
  intros H.
  destruct (step_dispatch now st)
    as [[Hp E]|[[Hp E]|[[Hp E]|[[Hp E]|[Hp E]]]]]; rewrite E in H.
  - apply brand_initial_offer_detail in H as (-> & _ & -> & _).
    split; [done | intros [?|?]; discriminate].
  - apply handle_influencer_response_detail in H
      as (_ & _ & [(-> & -> & _)|[(-> & -> & _)|(-> & -> & _)]]);
      (split; [try done; by left | try done; intros [?|?]; discriminate]).
  - apply brand_considers_counter_detail in H
      as [[-> _]|(io & b & mb & _ & _ & _ & _ & _ & _ & _
                  & [(_ & -> & -> & _)|(_ & _ & -> & -> & _)])].
    + destruct (bare_error_detail st) as (-> & _). cbn.
      split; [done | intros [?|?]; discriminate].
    + split; [by left | done].
    + split; [done | intros [?|?]; discriminate].
  - apply handle_final_decision_detail in H as (_ & -> & _ & _ & _ & _ & Hcases).
    destruct (says_accept _); destruct Hcases as [-> _];
      (split; [tauto | done]).
  - injection H as <-. destruct (unhandled_detail st) as (-> & _). cbn.
    split; [done | intros [?|?]; discriminate].
Qed.

(** Declining the final offer: the flag is set and the phase is "failed". *)
Lemma completion_flag_marks_the_end_witness :
  exists res,
    process_negotiation_step "t2"
      (demo_session "final_decision" (Some 50000) (Some 57499) (Some 60000)
         (lit "no thanks"))
    = Ok res
    /\ (get_is_complete res = true
        <-> negotiation_phase
              (merge_result
                 (demo_session "final_decision" (Some 50000) (Some 57499)
                    (Some 60000) (lit "no thanks")) res) = "completed"
            \/ negotiation_phase
                 (merge_result
                    (demo_session "final_decision" (Some 50000) (Some 57499)
                       (Some 60000) (lit "no thanks")) res) = "failed").
Proof.
  eexists. split; [vm_compute; reflexivity|].
  apply (completion_flag_marks_the_end "t2"
           (demo_session "final_decision" (Some 50000) (Some 57499)
              (Some 60000) (lit "no thanks"))).
  vm_compute. reflexivity.
Defined.

Lemma merge_result_created_at res : forall st,
  created_at (merge_result st res) = created_at st.
Proof.
  unfold merge_result. induction res as [|it res IH]; intros st; [done|].
  cbn [fold_left]. rewrite IH. by destruct st, it.
Qed.

Section StoreInvariants.

Context {RT : PyRuntime}.

Lemma one_message_step now st res :
  (exists m, messages st = [m]) ->
  process_negotiation_step now st = Ok res ->
  exists m, messages (merge_result st res) = [m].
Proof.
  intros Hone H.
  destruct (step_dispatch now st)
    as [[Hp E]|[[Hp E]|[[Hp E]|[[Hp E]|[Hp E]]]]]; rewrite E in H.
  - by apply brand_initial_offer_detail in H as (_ & ? & _).
  - by apply handle_influencer_response_detail in H as (? & _).
  - apply brand_considers_counter_detail in H
      as [[-> _]|(io & b & mb & _ & _ & _ & _ & _ & ? & _)]; [|done].
    destruct (bare_error_detail st) as (_ & -> & _). done.
  - by apply handle_final_decision_detail in H as (? & _).
  - injection H as <-. destruct (unhandled_detail st) as (_ & -> & _). done.
Qed.

Lemma budget_or_ceiling_at_most b x :
  is_budget_or_ceiling b x -> at_most_budget_or_ceiling b x.
Proof.
  intros [-> | Hx]; [left; lia | right; exists x; split; [done | lia]].
Qed.

Lemma numbers_invariant_step now st res :
  numbers_invariant st ->
  process_negotiation_step now st = Ok res ->
  numbers_invariant (merge_result st res).
Proof.
  intros (b & bo & io & Hb & Hb0 & Hbo & Hboc & Hio & Hio0 & Hap) H.
  unfold numbers_invariant.
  destruct (merge_result_identity res st) as (Hb' & _). rewrite Hb', Hb.
  destruct (step_dispatch now st)
    as [[Hp E]|[[Hp E]|[[Hp E]|[[Hp E]|[Hp E]]]]]; rewrite E in H.
  - apply brand_initial_offer_detail in H
      as (_ & _ & _ & (b1 & Hb1 & _ & Hbo') & Hio' & Hap' & _).
    rewrite Hb in Hb1. injection Hb1 as <-.
    exists b, b, io. rewrite Hbo', Hio', Hap'.
    repeat split; try done. by left.
  - apply handle_influencer_response_detail in H
      as (_ & Hbo' & [(_ & _ & _ & _ & Hap' & _ & Hio')
                      |[(_ & _ & _ & _ & (g & _ & _ & Hio') & Hap')
                       |(_ & _ & _ & _ & _ & Hio' & Hap')]]).
    + exists b, bo, io. rewrite Hbo', Hio', Hap', Hbo.
      repeat split; try done. by apply budget_or_ceiling_at_most.
    + exists b, bo, (digits_value g). rewrite Hbo', Hio', Hap'.
      repeat split; try done. apply digits_value_nonneg.
    + exists b, bo, io. rewrite Hbo', Hio', Hap'. by repeat split.
  - apply brand_considers_counter_detail in H
      as [[-> _]|(io1 & b1 & mb & Hio1 & Hb1 & _ & _ & Hmb & _ & Hio'
                  & [(Hle & _ & _ & _ & Hap' & Hbo')
                    |(_ & _ & _ & _ & _ & Hap' & Hbo' & _)])].
    + destruct (bare_error_detail st) as (_ & _ & -> & -> & -> & _).
      exists b, bo, io. by repeat split.
    + rewrite Hb in Hb1. injection Hb1 as <-.
      rewrite Hio in Hio1. injection Hio1 as <-.
      exists b, bo, io. rewrite Hbo', Hio', Hap'.
      repeat split; try done.
      destruct Hle as [?|?]; [by left | right; by exists mb].
    + rewrite Hb in Hb1. injection Hb1 as <-.
      rewrite Hio in Hio1. injection Hio1 as <-.
      exists b, mb, io. rewrite Hbo', Hio', Hap'.
      repeat split; try done. by right.
  - apply handle_final_decision_detail in H
      as (_ & _ & _ & Hbo' & Hio' & _ & Hcases).
    exists b, bo, io. rewrite Hbo', Hio'.
    repeat split; try done.
    destruct (says_accept _); destruct Hcases as [_ ->]; [|done].
    rewrite Hbo. by apply budget_or_ceiling_at_most.
  - injection H as <-.
    destruct (unhandled_detail st) as (_ & _ & -> & -> & -> & _).
    exists b, bo, io. by repeat split.
Qed.

Lemma numbers_invariant_reachable sessions sid s :
  reachable sessions -> sessions !! sid = Some s -> numbers_invariant (state s).
Proof.
  intros Hr. revert sid s.
  apply (reachable_invariant numbers_invariant); [| |exact numbers_invariant_step|done].
  - intros sid t_created t_last t_step request res H.
    rewrite initial_step in H.
    pose proof H as H'.
    apply brand_initial_offer_detail in H
      as (_ & _ & _ & (b & Hb & Hb0 & Hbo') & Hio' & Hap' & _).
    destruct (merge_result_identity res (initial_state sid t_created t_last request))
      as (Hb' & _).
    exists b, b, 0. rewrite Hb', Hbo', Hio', Hap'.
    repeat split; try done. by left.
  - intros t message st Hst. by destruct st.
Qed.

End StoreInvariants.

(** The ceiling is never below the budget it stretches. *)
Lemma stretch_ceiling_at_least_budget b mb :
  0 < b < 2 ^ 46 -> stretch_ceiling b = Ok mb -> b <= mb.
Proof.
  intros Hb Hmb.
  destruct (stretch_ceiling_near_floor b Hb) as (mb' & Hmb' & Hlow & _).
  rewrite Hmb in Hmb'. injection Hmb' as <-.
  destruct (Z_lt_le_dec b 7) as [Hsmall|Hbig].
  - assert (b = 1 \/ b = 2 \/ b = 3 \/ b = 4 \/ b = 5 \/ b = 6) as Hcases by lia.
    destruct Hcases as [->|[->|[->|[->|[->| ->]]]]];
      vm_compute in Hmb; injection Hmb as <-; lia.
  - assert (b + 1 <= b * 115 / 100) by (apply Z.div_le_lower_bound; lia).
    lia.
Qed.

(** X3: every session in the store holds exactly one entry in [messages]:
    each handler's result replaces the list by the summary of its own
    transition. *)
Theorem messages_hold_one_entry {RT : PyRuntime} sessions sid s :
  reachable sessions ->
  sessions !! sid = Some s ->
  exists m, messages (state s) = [m].
Proof.
  intros Hr. revert sid s.
  apply (reachable_invariant (fun st => exists m, messages st = [m]));
    [| |exact one_message_step|done].
  - intros sid t_created t_last t_step request res H.
    rewrite initial_step in H.
    by apply brand_initial_offer_detail in H as (_ & ? & _).
  - intros t message st Hst. by destruct st.
Qed.

(** After the opening offer, a question and a counter-offer the log holds
    the counter-offer alone. *)
Lemma messages_hold_one_entry_witness :
  exists s,
    demo_say (lit "60000") (demo_say (lit "what is it about?") (demo_open 50000))
      !! "s1" = Some s
    /\ messages (state s) = [lit "Influencer counters with " ++ rupee :: lit "60,000"]
    /\ exists m, messages (state s) = [m].
Proof.
  eexists. split; [vm_compute; reflexivity|]. split; [vm_compute; reflexivity|].
  apply (messages_hold_one_entry
           (demo_say (lit "60000")
              (demo_say (lit "what is it about?") (demo_open 50000))) "s1").
  - do 2 apply demo_say_reachable. apply demo_open_reachable.
  - vm_compute. reflexivity.
Defined.

(** X4: the brand never agrees to more than 115% of its budget: in every
    session of the store with a budget between 1 and 2^46, an agreed price
    is at most floor(budget * 115 / 100). *)
Theorem agreed_price_capped {RT : PyRuntime} sessions sid s b p :
  reachable sessions ->
  sessions !! sid = Some s ->
  budget (state s) = Some b ->
  0 < b < 2 ^ 46 ->
  agreed_price (state s) = Some p ->
  p <= b * 115 / 100.
Proof.
  intros Hr Hs Hb Hrange Hp.
  destruct (numbers_invariant_reachable sessions sid s Hr Hs)
    as (b' & bo & io & Hb' & _ & _ & _ & _ & _ & Hap).
  rewrite Hb in Hb'. injection Hb' as <-. rewrite Hp in Hap.
  destruct (stretch_ceiling_near_floor b Hrange) as (mb & Hmb & _ & Hup).
  assert (b <= b * 115 / 100) by (apply Z.div_le_lower_bound; lia).
  destruct Hap as [Hle|(mb' & Hmb' & Hle)]; [lia|].
  rewrite Hmb in Hmb'. injection Hmb' as <-. lia.
Qed.

(** A counter-offer of 55000 accepted at budget 50000. *)
Lemma agreed_price_capped_witness :
  exists s,
    demo_say (lit "ok") (demo_say (lit "55000") (demo_open 50000)) !! "s1" = Some s
    /\ agreed_price (state s) = Some 55000
    /\ 55000 <= 50000 * 115 / 100.
Proof.
  eexists. split; [vm_compute; reflexivity|]. split; [vm_compute; reflexivity|].
  eapply (agreed_price_capped
            (demo_say (lit "ok") (demo_say (lit "55000") (demo_open 50000)))
            "s1" _ 50000 55000).
  - do 2 apply demo_say_reachable. apply demo_open_reachable.
  - vm_compute. reflexivity.
  - vm_compute. reflexivity.
  - split; [lia | vm_compute; reflexivity].
  - vm_compute. reflexivity.
Defined.

(** X5: in every session of the store the budget is present and not zero,
    the counter-offer is present and not negative, and the brand's offer is
    present; for a budget between 1 and 2^46 the brand's offer is the
    budget, or lies between the budget and floor(budget * 115 / 100). *)
Theorem stored_numbers_in_range {RT : PyRuntime} sessions sid s :
  reachable sessions ->
  sessions !! sid = Some s ->
  exists b bo io,
    budget (state s) = Some b /\ b <> 0
    /\ influencer_offer (state s) = Some io /\ 0 <= io
    /\ brand_offer (state s) = Some bo
    /\ (0 < b < 2 ^ 46 -> b <= bo <= b * 115 / 100).
Proof.
  intros Hr Hs.
  destruct (numbers_invariant_reachable sessions sid s Hr Hs)
    as (b & bo & io & Hb & Hb0 & Hbo & Hboc & Hio & Hio0 & _).
  exists b, bo, io. repeat split; try done.
  - destruct Hboc as [-> | Hmb]; [lia|].
    by apply stretch_ceiling_at_least_budget.
  - destruct Hboc as [-> | Hmb].
    + apply Z.div_le_lower_bound; lia.
    + destruct (stretch_ceiling_near_floor b H) as (mb & Hmb' & _ & Hup).
      rewrite Hmb in Hmb'. by injection Hmb' as <-.
Qed.

(** After a counter-offer typed with a minus sign and the brand's final
    offer. *)
Lemma stored_numbers_in_range_witness :
  exists s,
    demo_say (lit "ok") (demo_say (lit "-60000") (demo_open 50000)) !! "s1" = Some s
    /\ influencer_offer (state s) = Some 60000
    /\ brand_offer (state s) = Some 57499
    /\ exists b bo io,
        budget (state s) = Some b /\ b <> 0
        /\ influencer_offer (state s) = Some io /\ 0 <= io
        /\ brand_offer (state s) = Some bo
        /\ (0 < b < 2 ^ 46 -> b <= bo <= b * 115 / 100).
Proof.
  eexists. split; [vm_compute; reflexivity|]. split; [vm_compute; reflexivity|].
  split; [vm_compute; reflexivity|].
  apply (stored_numbers_in_range
           (demo_say (lit "ok") (demo_say (lit "-60000") (demo_open 50000))) "s1").
  - do 2 apply demo_say_reachable. apply demo_open_reachable.
  - vm_compute. reflexivity.
Defined.

(** ** The stretch ceiling and the answer to a counter-offer *)

(** X6: [int(budget * 1.15)] raises for no budget below 2^1021 in absolute
    value, and for a budget between 1 and 2^46 its value is at least the
    budget and is floor(budget * 115 / 100) or one less. *)
Theorem ceiling_between_budget_and_floor :
  (forall b, Z.abs b < 2 ^ 1021 -> exists mb, stretch_ceiling b = Ok mb)
  /\ (forall b,
        0 < b < 2 ^ 46 ->
        exists mb,
          stretch_ceiling b = Ok mb
          /\ b <= mb
          /\ b * 115 / 100 - 1 <= mb <= b * 115 / 100).
Proof.
  split; [exact stretch_ceiling_total|].
  intros b Hb.
  destruct (stretch_ceiling_near_floor b Hb) as (mb & Hmb & Hnear).
  exists mb. split; [done|]. split; [|done].
  by apply (stretch_ceiling_at_least_budget b mb).
Qed.

(** Budget 50000: the ceiling is 57499, one less than the floor 57500. *)
Lemma ceiling_between_budget_and_floor_witness :
  exists mb,
    stretch_ceiling 50000 = Ok mb
    /\ 50000 <= mb
    /\ 50000 * 115 / 100 - 1 <= mb <= 50000 * 115 / 100.
Proof.
  apply (proj2 ceiling_between_budget_and_floor 50000).
  split; [lia | vm_compute; reflexivity].
Defined.

(** X7: in "brand_considering" with a non-zero counter-offer and a
    non-zero budget below 2^1021 in absolute value, the step either
    completes at the counter-offer (when it is at most the budget or at
    most the ceiling) or answers with the ceiling as final offer; the final
    offer is then strictly below the counter-offer, nothing is agreed, and
    the two options are to accept or to decline. *)
Theorem counter_offer_outcomes {RT : PyRuntime} now st io b :
  negotiation_phase st = "brand_considering" ->
  influencer_offer st = Some io ->
  budget st = Some b ->
  io <> 0 ->
  b <> 0 ->
  Z.abs b < 2 ^ 1021 ->
  exists res mb,
    process_negotiation_step now st = Ok res
    /\ stretch_ceiling b = Ok mb
    /\ (((io <= b \/ io <= mb)
         /\ negotiation_phase (merge_result st res) = "completed"
         /\ agreed_price (merge_result st res) = Some io
         /\ brand_offer (merge_result st res) = brand_offer st)
        \/ (b < io /\ mb < io
            /\ negotiation_phase (merge_result st res) = "final_decision"
            /\ brand_offer (merge_result st res) = Some mb
            /\ agreed_price (merge_result st res) = agreed_price st
            /\ get_is_complete res = false
            /\ get_options res = [lit "Accept final offer"; lit "Decline offer"])).
Proof.
  intros Hp Hio Hb Hio0 Hb0 Hrange.
  rewrite (step_brand_considering now st Hp).
  destruct (stretch_ceiling_total b Hrange) as [mb Hmb].
  destruct (brand_considers_counter now st) as [res|e] eqn:E.
  - exists res, mb. split; [done|]. split; [done|].
    apply brand_considers_counter_detail in E
      as [[_ Hf]|(io1 & b1 & mb1 & Hio1 & Hb1 & _ & _ & Hmb1 & _ & _ & Hcases)].
    + exfalso. rewrite Hio, Hb in Hf. cbn in Hf.
      apply orb_prop in Hf as [Hf | Hf]; apply Z.eqb_eq in Hf; contradiction.
    + rewrite Hio in Hio1. injection Hio1 as <-.
      rewrite Hb in Hb1. injection Hb1 as <-.
      rewrite Hmb in Hmb1. injection Hmb1 as <-.
      destruct Hcases as [(Hle & Hph & _ & _ & Hap & Hbo)
                         |(? & ? & Hph & Hic & _ & Hap & Hbo & Hopt)].
      * left. by repeat split.
      * right. by repeat split.
  - exfalso. revert E. unfold brand_considers_counter. rewrite Hio, Hb, Hmb.
    cbn [bind]. destruct (Z.eqb_spec io 0); [done|].
    destruct (Z.eqb_spec b 0); [done|]. cbn [orb].
    by destruct (io <=? b), (io <=? mb).
Qed.

(** Budget 50000, counter-offer 60000: the final offer is 57499. *)
Lemma counter_offer_outcomes_witness :
  exists res mb,
    process_negotiation_step "t2"
      (demo_session "brand_considering" (Some 50000) (Some 50000) (Some 60000) (lit "x"))
    = Ok res
    /\ stretch_ceiling 50000 = Ok mb
    /\ mb < 60000
    /\ brand_offer
         (merge_result
            (demo_session "brand_considering" (Some 50000) (Some 50000)
               (Some 60000) (lit "x")) res) = Some mb.
Proof.
  destruct (counter_offer_outcomes "t2"
              (demo_session "brand_considering" (Some 50000) (Some 50000)
                 (Some 60000) (lit "x")) 60000 50000)
    as (res & mb & Hres & Hmb & Hcases).
  - reflexivity.
  - reflexivity.
  - reflexivity.
  - lia.
  - lia.
  - vm_compute. reflexivity.
  - exists res, mb. split; [exact Hres|]. split; [exact Hmb|].
    vm_compute in Hmb. injection Hmb as <-.
    destruct Hcases as [([?|?] & _)|(_ & ? & _ & Hbo & _)]; [lia|lia|].
    split; [lia | exact Hbo].
Defined.

(** ** The life of a session *)

Section Lifecycle.

Context {RT : PyRuntime}.

Lemma is_complete_sticky_step now st res :
  process_negotiation_step now st = Ok res ->
  is_complete st = Some true ->
  is_complete (merge_result st res) = Some true.
Proof.
  intros H Hic.
  destruct (step_dispatch now st)
    as [[Hp E]|[[Hp E]|[[Hp E]|[[Hp E]|[Hp E]]]]]; rewrite E in H.
  - apply brand_initial_offer_detail in H as (_ & _ & _ & _ & _ & _ & ->). done.
  - apply handle_influencer_response_detail in H
      as (_ & _ & [(_ & _ & -> & _)|[(_ & _ & -> & _)|(_ & _ & -> & _)]]); done.
  - apply brand_considers_counter_detail in H
      as [[-> _]|(io & b & mb & _ & _ & _ & _ & _ & _ & _
                  & [(_ & _ & _ & -> & _)|(_ & _ & _ & _ & -> & _)])];
      try done.
    by destruct (bare_error_detail st) as (_ & _ & _ & _ & _ & _ & -> & _).
  - by apply handle_final_decision_detail in H as (_ & _ & -> & _).
  - injection H as <-.
    by destruct (unhandled_detail st) as (_ & _ & _ & _ & _ & _ & -> & _).
Qed.

Lemma respond_state_keeps t_input t_step message st :
  let st' := respond_state t_input t_step message st in
  created_at st' = created_at st
  /\ (is_complete st = Some true -> is_complete st' = Some true).
Proof.
  unfold respond_state.
  assert (created_at (record_input t_input message st) = created_at st
          /\ is_complete (record_input t_input message st) = is_complete st)
    as [Hca Hic] by by destruct st.
  destruct (process_negotiation_step _ _) as [res|e] eqn:E; cbn zeta.
  - rewrite merge_result_created_at, Hca. split; [done|].
    intros H. apply (is_complete_sticky_step _ _ _ E). by rewrite Hic.
  - by rewrite Hca, Hic.
Qed.

End Lifecycle.

(** X8: whatever the client sends, and however often, a session keeps its
    creation time, its rounds never decrease and grow by at most one per
    turn, and once it has been flagged complete it stays flagged. *)
Theorem session_only_moves_forward {RT : PyRuntime} turns : forall st,
  created_at (play st turns) = created_at st
  /\ negotiation_rounds st <= negotiation_rounds (play st turns)
     <= negotiation_rounds st + Z.of_nat (length turns)
  /\ (is_complete st = Some true -> is_complete (play st turns) = Some true).
Proof.
  induction turns as [|t turns IH]; intros st.
  - cbn. repeat split; try done; lia.
  - change (play st (t :: turns))
      with (play (respond_state (turn_t_input t) (turn_t_step t) (turn_message t) st)
              turns).
    destruct (IH (respond_state (turn_t_input t) (turn_t_step t) (turn_message t) st))
      as (Hca & Hrd & Hic).
    destruct (respond_state_keeps (turn_t_input t) (turn_t_step t) (turn_message t) st)
      as (Hca1 & Hic1).
    pose proof (respond_state_rounds (turn_t_input t) (turn_t_step t)
                  (turn_message t) st) as Hrd1.
    cbn zeta in Hrd1. cbn [length].
    split; [by rewrite Hca|]. split; [|auto].
    destruct (advances _ _ _ st); destruct Hrd1 as [Hrd1 _]; lia.
Qed.

(** ** The routes and the store *)

Section RouteFacts.

Context {RT : PyRuntime}.

Lemma respond_reply t_input t_step request sessions s :
  sessions !! req_session_id request = Some s ->
  respond_to_negotiation t_input t_step request sessions
  = let current_state := record_input t_input (req_message request) (state s) in
    match process_negotiation_step t_step current_state with
    | Ok result =>
        (<[req_session_id request :=
             {| state := merge_result current_state result;
                entry_created_at := entry_created_at s |}]> sessions,
         Reply {| reply_session_id := req_session_id request;
                  reply_type := "message";
                  reply_content := get_bot_response result;
                  reply_options := get_options result;
                  reply_state := merge_result current_state result;
                  reply_is_complete := get_is_complete result |})
    | Raise e =>
        (<[req_session_id request :=
             {| state := current_state;
                entry_created_at := entry_created_at s |}]> sessions,
         HTTPException 500 (str_exn e))
    end.
Proof. intros Hs. unfold respond_to_negotiation. by rewrite Hs. Qed.

End RouteFacts.

(** X9: [/respond] for an unknown session answers 404 and leaves the store
    as it is; for a known one it leaves every other session as it is; in
    both cases the store holds the same session ids afterwards. *)
Theorem respond_touches_one_session {RT : PyRuntime} t_input t_step request sessions :
  (sessions !! req_session_id request = None ->
   respond_to_negotiation t_input t_step request sessions
   = (sessions, HTTPException 404 "Session not found"))
  /\ (forall sid,
        sid <> req_session_id request ->
        (respond_to_negotiation t_input t_step request sessions).1 !! sid
        = sessions !! sid)
  /\ dom (respond_to_negotiation t_input t_step request sessions).1 = dom sessions.
Proof.
  split; [|split].
  - intros Hs. unfold respond_to_negotiation. by rewrite Hs.
  - intros sid Hne. rewrite respond_store.
    destruct (sessions !! req_session_id request); [|done].
    by rewrite lookup_insert_ne.
  - rewrite respond_store.
    destruct (sessions !! req_session_id request) as [s|] eqn:E; [|done].
    apply dom_insert_lookup_L. by eexists.
Qed.

(** X10: the state a reply of [/start-negotiation] or [/respond] carries is
    the state [GET /session/{id}] returns right after it. *)
Theorem reply_state_is_stored_state {RT : PyRuntime} :
  (forall sid t_created t_last t_step t_entry request sessions,
     match start_negotiation sid t_created t_last t_step t_entry request sessions with
     | (sessions', Reply r) =>
         get_session_state (reply_session_id r) sessions'
         = inl (reply_session_id r, reply_state r)
     | (sessions', HTTPException _ _) => sessions' = sessions
     end)
  /\ (forall t_input t_step request sessions,
        match respond_to_negotiation t_input t_step request sessions with
        | (sessions', Reply r) =>
            get_session_state (reply_session_id r) sessions'
            = inl (reply_session_id r, reply_state r)
        | (sessions', HTTPException status _) =>
            status = 404 /\ sessions' = sessions
            \/ status = 500
               /\ exists s s',
                   sessions !! req_session_id request = Some s
                   /\ get_session_state (req_session_id request) sessions'
                      = inl (req_session_id request, s')
                   /\ user_input s' = req_message request
                   /\ engine_fields s' = engine_fields (state s)
        end).
Proof.
  split.
  - intros. unfold start_negotiation.
    destruct (process_negotiation_step _ _); [|done].
    cbn [reply_session_id reply_state]. unfold get_session_state.
    by rewrite lookup_insert_eq.
  - intros. destruct (sessions !! req_session_id request) as [s|] eqn:Hs.
    + rewrite (respond_reply _ _ _ _ s Hs). cbn zeta.
      destruct (process_negotiation_step _ _) eqn:E.
      * cbn [reply_session_id reply_state]. unfold get_session_state.
        by rewrite lookup_insert_eq.
      * right. split; [done|]. eexists s, _. split; [done|].
        unfold get_session_state. rewrite lookup_insert_eq. cbn [state].
        split; [reflexivity|]. by destruct (state s).
    + unfold respond_to_negotiation. rewrite Hs. by left.
Qed.

(** X11: [/start-negotiation] answers 500 and stores nothing when the
    budget is 0 or when campaign_type or duration is null; otherwise it
    stores, under the new id, a session waiting for the influencer with
    brand_offer = budget, rounds 1, nothing agreed, one message, and
    replies with that state, three options and no completion flag.  Other
    sessions are left as they are. *)
Theorem start_negotiation_outcomes {RT : PyRuntime}
    sid t_created t_last t_step t_entry request sessions :
  let outcome :=
    start_negotiation sid t_created t_last t_step t_entry request sessions in
  (forall sid', sid' <> sid -> outcome.1 !! sid' = sessions !! sid')
  /\ if req_budget request =? 0
     then outcome = (sessions, HTTPException 500 "Missing budget in state")
     else match req_campaign_type request, req_duration request with
          | Some _, Some _ =>
              exists r,
                outcome = (<[sid := {| state := reply_state r;
                                       entry_created_at := t_entry |}]> sessions,
                           Reply r)
                /\ reply_session_id r = sid
                /\ reply_is_complete r = false
                /\ reply_options r
                   = [lit "Accept the offer"; lit "Counter with your price";
                      lit "Ask about campaign details"]
                /\ negotiation_phase (reply_state r)
                   = "waiting_for_influencer_response"
                /\ budget (reply_state r) = Some (req_budget request)
                /\ brand_offer (reply_state r) = Some (req_budget request)
                /\ influencer_offer (reply_state r) = Some 0
                /\ agreed_price (reply_state r) = None
                /\ negotiation_rounds (reply_state r) = 1
                /\ (exists m, messages (reply_state r) = [m])
                /\ session_id (reply_state r) = sid
                /\ created_at (reply_state r) = t_created
                /\ last_activity (reply_state r) = t_step
          | _, _ =>
              outcome
              = (sessions,
                 HTTPException 500 "'NoneType' object has no attribute 'replace'")
          end.
Proof.
  cbn zeta. split.
  - intros sid' Hne. unfold start_negotiation.
    destruct (process_negotiation_step _ _); [|done].
    cbn [fst]. by rewrite lookup_insert_ne.
  - destruct request as [b ct du]. cbn [req_budget req_campaign_type req_duration].
    unfold start_negotiation, process_negotiation_step, brand_initial_offer.
    cbn [initial_state negotiation_phase budget campaign_type duration
         negotiation_rounds String.eqb Ascii.eqb Bool.eqb
         req_budget req_campaign_type req_duration].
    destruct (b =? 0); [done|].
    destruct ct as [ct|]; [|done]. destruct du as [du|]; [|done].
    cbn [replace_ bind].
    match goal with |- exists r, (_, Reply ?r0) = _ /\ _ => exists r0 end.
    split; [reflexivity|].
    cbn [reply_session_id reply_is_complete reply_options reply_state
         get_is_complete get_options]. merged.
    repeat split; eauto.
Qed.

(** X12: deleting a stored session makes it unknown to [GET /session/{id}]
    and to [/respond] (both answer 404), lowers the session count by one
    and leaves the other sessions as they are; deleting an unknown session
    answers 404 and changes nothing. *)
Theorem end_session_effects {RT : PyRuntime} sid sessions :
  match sessions !! sid with
  | Some _ =>
      let sessions' := (end_session sid sessions).1 in
      (end_session sid sessions).2 = inl "Session ended successfully"
      /\ get_session_state sid sessions' = inr (404, "Session not found")
      /\ (forall t_input t_step message,
            respond_to_negotiation t_input t_step
              {| req_session_id := sid; req_message := message |} sessions'
            = (sessions', HTTPException 404 "Session not found"))
      /\ (root sessions').2 + 1 = (root sessions).2
      /\ (forall sid', sid' <> sid -> sessions' !! sid' = sessions !! sid')
  | None =>
      end_session sid sessions = (sessions, inr (404, "Session not found"))
  end.
Proof.
  unfold end_session. destruct (sessions !! sid) as [s|] eqn:Hs; [|done].
  cbn [fst snd]. cbn zeta. repeat split.
  - unfold get_session_state. by rewrite lookup_delete_eq.
  - intros. unfold respond_to_negotiation. cbn [req_session_id].
    by rewrite lookup_delete_eq.
  - unfold root. cbn [snd].
    rewrite <- (insert_delete_id sessions sid s Hs) at 2.
    rewrite map_size_insert_None by apply lookup_delete_eq. lia.
  - intros sid' Hne. by rewrite lookup_delete_ne.
Qed.

(** X13: the session count [GET /] reports is unchanged by [/respond] and
    by a failed [/start-negotiation]; a successful start raises it by one
    when the id is new and leaves it when the id replaces a stored
    session. *)
Theorem session_count_changes {RT : PyRuntime} :
  (forall t_input t_step request sessions,
     root (respond_to_negotiation t_input t_step request sessions).1
     = root sessions)
  /\ (forall sid t_created t_last t_step t_entry request sessions,
        match start_negotiation sid t_created t_last t_step t_entry request sessions
        with
        | (sessions', Reply _) =>
            (root sessions').2
            = (root sessions).2
              + match sessions !! sid with
                | Some _ => 0
                | None => 1
                end
        | (sessions', HTTPException _ _) => root sessions' = root sessions
        end).
Proof.
  split.
  - intros. unfold root. f_equal. f_equal. rewrite respond_store.
    destruct (sessions !! req_session_id request) as [s|] eqn:Hs; [|done].
    rewrite <- (insert_delete_id sessions _ s Hs) at 2.
    rewrite <- insert_delete_eq.
    by rewrite !map_size_insert_None by apply lookup_delete_eq.
  - intros. unfold start_negotiation.
    destruct (process_negotiation_step _ _); [|done].
    unfold root. cbn [snd].
    destruct (sessions !! sid) as [s|] eqn:Hs.
    + rewrite <- (insert_delete_id sessions _ s Hs) at 2.
      rewrite <- insert_delete_eq.
      rewrite !map_size_insert_None by apply lookup_delete_eq. lia.
    + rewrite map_size_insert_None by done. lia.
Qed.

(** X14: [GET /sessions] has exactly one entry per stored session, showing
    that session's id, creation time, budget, phase, last activity and
    rounds; no id appears twice, and the number of entries is the count
    [GET /] reports. *)
Theorem sessions_listing_matches_store (sessions : gmap string session) :
  (forall info,
     In info (get_active_sessions sessions)
     <-> exists sid s, sessions !! sid = Some s /\ info = session_info_of sid s)
  /\ NoDup (info_session_id <$> get_active_sessions sessions)
  /\ Z.of_nat (length (get_active_sessions sessions)) = (root sessions).2.
Proof.
  unfold get_active_sessions. split; [|split].
  - intros info. rewrite <- list_elem_of_In, list_elem_of_fmap. split.
    + intros ([sid s] & -> & Hin). apply elem_of_map_to_list in Hin. eauto.
    + intros (sid & s & Hs & ->). exists (sid, s). split; [done|].
      by apply elem_of_map_to_list.
  - rewrite <- list_fmap_compose.
    apply (NoDup_fst_map_to_list sessions).
  - unfold root. cbn [snd]. by rewrite length_fmap, length_map_to_list.
Qed.

(** X15: [/respond-stream], read to its end, leaves the store exactly as
    [/respond] does for the same request and clock.  Where [/respond]
    replies, the stream is one frame per character of that reply's text
    followed by a closing frame with the same options, state and flag;
    where [/respond] answers 500 the stream is a single error frame with
    the same text; an unknown session gets 404 from both. *)
Theorem stream_delivers_the_reply {RT : PyRuntime} t_input t_step request sessions :
  (respond_to_negotiation_stream t_input t_step request sessions).1
  = (respond_to_negotiation t_input t_step request sessions).1
  /\ match sessions !! req_session_id request with
     | None =>
         (respond_to_negotiation_stream t_input t_step request sessions).2
         = inr (404, "Session not found")
         /\ (respond_to_negotiation t_input t_step request sessions).2
            = HTTPException 404 "Session not found"
     | Some _ =>
         match (respond_to_negotiation t_input t_step request sessions).2 with
         | Reply r =>
             (respond_to_negotiation_stream t_input t_step request sessions).2
             = inl (map f_stream (reply_content r)
                    ++ [ f_complete (reply_session_id r) (reply_options r)
                           (reply_state r) (reply_is_complete r) ])
         | HTTPException status detail =>
             status = 500
             /\ (respond_to_negotiation_stream t_input t_step request sessions).2
                = inl [ f_error detail ]
         end
     end.
Proof.
  unfold respond_to_negotiation_stream.
  destruct (sessions !! req_session_id request) as [s|] eqn:Hs.
  - rewrite (respond_reply _ _ _ _ s Hs). cbn zeta.
    unfold respond_stream_generate, respond_stream_record, generate_stream,
      stream_message.
    rewrite Hs, lookup_insert_eq. cbn [state entry_created_at fst snd].
    destruct (process_negotiation_step _ _) as [res|e].
    + cbn [fst snd reply_content reply_session_id reply_options reply_state
           reply_is_complete].
      split; [apply insert_insert_eq | done].
    + cbn [fst snd]. by repeat split.
  - unfold respond_to_negotiation. rewrite Hs. by repeat split.
Qed.

(** X16: a conversation that has ended cannot be resumed: a message to a
    session in phase "completed", "failed" or "error" is answered with the
    generic failure text, no options and no completion flag, and leaves the
    session in phase "error" with the rounds, offers, agreed price and
    messages it had. *)
Theorem ended_conversation_stays_ended {RT : PyRuntime}
    t_input t_step request sessions s :
  sessions !! req_session_id request = Some s ->
  terminal (negotiation_phase (state s)) ->
  exists r,
    (respond_to_negotiation t_input t_step request sessions).2 = Reply r
    /\ reply_content r = generic_failure
    /\ reply_options r = []
    /\ reply_is_complete r = false
    /\ negotiation_phase (reply_state r) = "error"
    /\ negotiation_rounds (reply_state r) = negotiation_rounds (state s)
    /\ brand_offer (reply_state r) = brand_offer (state s)
    /\ influencer_offer (reply_state r) = influencer_offer (state s)
    /\ agreed_price (reply_state r) = agreed_price (state s)
    /\ messages (reply_state r) = messages (state s)
    /\ user_input (reply_state r) = req_message request.
Proof.
  intros Hs Ht. rewrite (respond_reply _ _ _ _ s Hs). cbn zeta.
  rewrite step_unhandled.
  - eexists. split; [reflexivity|].
    cbn [reply_content reply_options reply_is_complete reply_state
         get_bot_response get_options get_is_complete].
    by destruct (state s).
  - assert (negotiation_phase (record_input t_input (req_message request) (state s))
            = negotiation_phase (state s)) as -> by by destruct (state s).
    unfold handled, terminal in *. intros Hh.
    destruct Ht as [E|[E|E]]; rewrite E in Hh; intuition discriminate.
Qed.

(** A message to the session that accepted the opening offer. *)
Lemma ended_conversation_stays_ended_witness :
  exists r,
    (respond_to_negotiation "t3" "t4"
       {| req_session_id := "s1"; req_message := lit "I changed my mind, 70000" |}
       (demo_say (lit "yes please") (demo_open 50000))).2 = Reply r
    /\ reply_content r = generic_failure
    /\ negotiation_phase (reply_state r) = "error"
    /\ agreed_price (reply_state r) = Some 50000.
Proof.
  assert (exists s,
            demo_say (lit "yes please") (demo_open 50000) !! "s1" = Some s
            /\ negotiation_phase (state s) = "completed"
            /\ agreed_price (state s) = Some 50000) as (s & Hs & Hph & Hap).
  { eexists. split; [vm_compute; reflexivity|]. split; vm_compute; reflexivity. }
  destruct (ended_conversation_stays_ended "t3" "t4"
              {| req_session_id := "s1";
                 req_message := lit "I changed my mind, 70000" |}
              (demo_say (lit "yes please") (demo_open 50000)) s Hs)
    as (r & Hr & Hc & _ & _ & Hph' & _ & _ & _ & Hap' & _).
  - left. exact Hph.
  - exists r. split; [exact Hr|]. split; [exact Hc|]. split; [exact Hph'|].
    by rewrite Hap'.
Defined.

(** X17: [determine_next_step] names the handler [process_negotiation_step]
    runs in the phases where a negotiation is open; in phase "initial" and
    in the phases without a handler it answers "handle_response" although
    [process_negotiation_step] makes the opening offer, or moves to
    "error", there. *)
Theorem determine_next_step_and_dispatch {RT : PyRuntime} now st :
  (waiting (negotiation_phase st)
   /\ determine_next_step st = "handle_response"
   /\ process_negotiation_step now st = handle_influencer_response now st)
  \/ (negotiation_phase st = "brand_considering"
      /\ determine_next_step st = "brand_considers"
      /\ process_negotiation_step now st = brand_considers_counter now st)
  \/ (negotiation_phase st = "final_decision"
      /\ determine_next_step st = "final_choice"
      /\ process_negotiation_step now st = handle_final_decision now st)
  \/ (negotiation_phase st = "initial"
      /\ determine_next_step st = "handle_response"
      /\ process_negotiation_step now st = brand_initial_offer now st)
  \/ (~ handled (negotiation_phase st)
      /\ determine_next_step st = "handle_response"
      /\ process_negotiation_step now st
         = Ok [ k_negotiation_phase "error"; k_bot_response generic_failure ]).
Proof.
  destruct (step_dispatch now st)
    as [[Hp E]|[[Hp E]|[[Hp E]|[[Hp E]|[Hp E]]]]]; unfold determine_next_step.
  - right; right; right; left. by rewrite Hp.
  - left. split; [done|]. split; [|done]. by destruct Hp as [-> | ->].
  - right; left. by rewrite Hp.
  - right; right; left. by rewrite Hp.
  - right; right; right; right. split; [done|]. split; [|done].
    unfold handled in Hp.
    destruct (String.eqb_spec (negotiation_phase st) "waiting_for_influencer_response");
      [tauto|].
    destruct (String.eqb_spec (negotiation_phase st) "waiting_for_decision"); [tauto|].
    destruct (String.eqb_spec (negotiation_phase st) "brand_considering"); [tauto|].
    destruct (String.eqb_spec (negotiation_phase st) "final_decision"); [tauto|].
    done.
Qed.

(** ** Reading a message: keywords, options, and no number *)

Lemma starts_with_spec needle : forall hay,
  starts_with needle hay = true <-> exists post, hay = needle ++ post.
Proof.
  induction needle as [|a needle IH]; intros hay.
  - cbn. split; [intros _; by exists hay | done].
  - destruct hay as [|b hay]; cbn [starts_with].
    + split; [done | intros (post & Hpost); discriminate Hpost].
    + rewrite andb_true_iff, Z.eqb_eq, IH. split.
      * intros (-> & post & ->). by exists post.
      * intros (post & Hpost). cbn in Hpost. injection Hpost as -> ->. eauto.
Qed.

Lemma contains_spec needle : forall hay,
  contains needle hay = true <-> exists pre post, hay = pre ++ needle ++ post.
Proof.
  induction hay as [|b hay IH].
  - cbn [contains]. rewrite orb_false_r, starts_with_spec. split.
    + intros (post & ->). by exists [], post.
    + intros (pre & post & Hhay). destruct pre as [|? pre]; [by exists post|].
      discriminate Hhay.
  - cbn [contains]. rewrite orb_true_iff, starts_with_spec, IH. split.
    + intros [(post & ->)|(pre & post & ->)].
      * by exists [], post.
      * by exists (b :: pre), post.
    + intros (pre & post & Hhay). destruct pre as [|c pre].
      * left. by exists post.
      * right. cbn in Hhay. injection Hhay as -> ->. by exists pre, post.
Qed.

(** X18: the accept test and the details test are substring tests on the
    lowercase message: the message is read as an acceptance exactly when
    its lowercase form has "accept" or "yes" somewhere inside, and as a
    question about the campaign exactly when it has one of "campaign",
    "what", "about", "details", "?" inside. *)
Theorem keyword_tests_are_substring_tests {RT : PyRuntime} s :
  (says_accept s = true
   <-> exists pre post,
        str_lower s = pre ++ lit "accept" ++ post
        \/ str_lower s = pre ++ lit "yes" ++ post)
  /\ (asks_details s = true
      <-> exists word pre post,
           In word [lit "campaign"; lit "what"; lit "about"; lit "details"; lit "?"]
           /\ str_lower s = pre ++ word ++ post).
Proof.
  split.
  - unfold says_accept. rewrite orb_true_iff, !contains_spec. split.
    + intros [(pre & post & H)|(pre & post & H)]; exists pre, post; tauto.
    + intros (pre & post & [H|H]); [left|right]; by exists pre, post.
  - unfold asks_details. rewrite existsb_exists. split.
    + intros (word & Hin & Hc). apply contains_spec in Hc as (pre & post & H).
      by exists word, pre, post.
    + intros (word & pre & post & Hin & H). exists word. split; [done|].
      apply contains_spec. by exists pre, post.
Qed.

Lemma uint_chars_ascii u : Forall is_ascii (uint_chars u).
Proof.
  induction u; cbn [uint_chars]; constructor; try done; unfold is_ascii; lia.
Qed.

Lemma group3_ascii ds : forall k, Forall is_ascii ds -> Forall is_ascii (group3 k ds).
Proof.
  induction ds as [|d ds IH]; intros k Hds; [constructor|].
  apply Forall_cons in Hds as [Hd Hds]. cbn [group3].
  destruct k as [|k].
  - constructor; [unfold is_ascii; lia|]. constructor; [done|]. by apply IH.
  - constructor; [done|]. by apply IH.
Qed.

Lemma format_commas_ascii n : Forall is_ascii (format_commas n).
Proof.
  unfold format_commas.
  assert (Forall is_ascii
            (rev (group3 3 (rev (uint_chars (N.to_uint (Z.abs_N n))))))) as Hbody.
  { apply Forall_rev, group3_ascii, Forall_rev, uint_chars_ascii. }
  destruct (n <? 0); [|done]. constructor; [unfold is_ascii; lia | done].
Qed.

Section Options.

Context {RT : PyRuntime}.

Lemma accept_option_plain n : Forall plain (accept_option n).
Proof.
  unfold accept_option. apply Forall_app. split.
  - apply forallb_plain. reflexivity.
  - constructor; [by right|].
    eapply Forall_impl; [apply format_commas_ascii|]. intros c Hc. by left.
Qed.

Lemma says_accept_accept_option n : says_accept (accept_option n) = true.
Proof.
  rewrite says_accept_plain by apply accept_option_plain.
  unfold says_accept, accept_option. cbn [str_lower ascii_runtime].
  apply orb_true_iff. left. apply contains_spec.
  exists [], (32 :: map ascii_lower (rupee :: format_commas n)).
  rewrite map_app. reflexivity.
Qed.

Lemma first_digit_run_none s :
  Forall (fun c => is_digit c = false) s -> first_digit_run s = [].
Proof.
  induction 1 as [|c s Hc _ IH]; [done|]. cbn [first_digit_run]. by rewrite Hc.
Qed.

Lemma search_price_none s :
  Forall (fun c => is_digit c = false) s -> search_price s = None.
Proof.
  intros Hs. by rewrite search_price_first_run, first_digit_run_none.
Qed.

End Options.

(** The reply of a successful [/start-negotiation]. *)
Lemma start_negotiation_shape {RT : PyRuntime}
    sid t_created t_last t_step t_entry request sessions :
  req_budget request <> 0 ->
  req_campaign_type request <> None ->
  req_duration request <> None ->
  exists r,
    (start_negotiation sid t_created t_last t_step t_entry request sessions).2
    = Reply r
    /\ reply_options r
       = [lit "Accept the offer"; lit "Counter with your price";
          lit "Ask about campaign details"]
    /\ negotiation_phase (reply_state r) = "waiting_for_influencer_response"
    /\ brand_offer (reply_state r) = Some (req_budget request).
Proof.
  intros Hb Hct Hdu. destruct request as [b [ct|] [du|]]; try done.
  cbn in Hb. unfold start_negotiation, process_negotiation_step, brand_initial_offer.
  cbn [initial_state negotiation_phase budget campaign_type duration
       negotiation_rounds String.eqb Ascii.eqb Bool.eqb replace_ bind
       req_budget req_campaign_type req_duration].
  destruct (Z.eqb_spec b 0) as [?|_]; [done|].
  eexists. split; [reflexivity|].
  cbn [reply_options reply_state get_options]. merged. by repeat split.
Qed.

Section Undecided.

Context {RT : PyRuntime}.

(** The two last branches of [handle_influencer_response]. *)
Lemma undecided_branch now st bo :
  waiting (negotiation_phase st) ->
  says_accept (user_input st) = false ->
  Forall (fun c => is_digit c = false) (user_input st) ->
  brand_offer st = Some bo ->
  campaign_type st <> None ->
  duration st <> None ->
  exists res,
    process_negotiation_step now st = Ok res
    /\ negotiation_phase (merge_result st res) = "waiting_for_decision"
    /\ negotiation_rounds (merge_result st res) = negotiation_rounds st + 1
    /\ brand_offer (merge_result st res) = Some bo
    /\ influencer_offer (merge_result st res) = influencer_offer st
    /\ agreed_price (merge_result st res) = agreed_price st
    /\ get_is_complete res = false
    /\ get_options res
       = accept_option bo :: lit "Make counter-offer"
         :: (if asks_details (user_input st) then [lit "Need more details"] else []).
Proof.
  intros Hp Hacc Hnodigit Hbo Hct Hdu. rewrite (step_waiting now st Hp).
  apply search_price_none in Hnodigit.
  destruct st as [ms b ct du bo' io ap ph rd ui sid ca la ic].
  cbn in Hacc, Hnodigit, Hbo, Hct, Hdu. subst bo'.
  unfold handle_influencer_response.
  cbn [brand_offer user_input negotiation_rounds campaign_type duration].
  rewrite Hacc, Hnodigit.
  destruct ct as [ct|]; [|done]. destruct du as [du|]; [|done].
  cbn [replace_ fmt bind].
  destruct (asks_details ui); eexists; (split; [reflexivity|]); merged;
    cbn [get_is_complete get_options]; by repeat split.
Qed.

End Undecided.

(** X19: a message to a waiting session that has no accept keyword and no
    digit keeps the negotiation open: [/respond] replies without the
    completion flag, with the options to accept the current brand offer or
    to counter (and to ask for more details when the message asked about
    the campaign), and the session waits in "waiting_for_decision" with its
    offers and agreed price as they were and one more round. *)
Theorem undecided_message_keeps_waiting {RT : PyRuntime}
    t_input t_step request sessions s bo :
  sessions !! req_session_id request = Some s ->
  waiting (negotiation_phase (state s)) ->
  says_accept (req_message request) = false ->
  Forall (fun c => is_digit c = false) (req_message request) ->
  brand_offer (state s) = Some bo ->
  campaign_type (state s) <> None ->
  duration (state s) <> None ->
  exists r,
    (respond_to_negotiation t_input t_step request sessions).2 = Reply r
    /\ reply_is_complete r = false
    /\ reply_options r
       = accept_option bo :: lit "Make counter-offer"
         :: (if asks_details (req_message request)
             then [lit "Need more details"] else [])
    /\ negotiation_phase (reply_state r) = "waiting_for_decision"
    /\ negotiation_rounds (reply_state r) = negotiation_rounds (state s) + 1
    /\ brand_offer (reply_state r) = Some bo
    /\ influencer_offer (reply_state r) = influencer_offer (state s)
    /\ agreed_price (reply_state r) = agreed_price (state s).
Proof.
  intros Hs Hp Hacc Hnodigit Hbo Hct Hdu.
  rewrite (respond_reply _ _ _ _ s Hs). cbn zeta.
  set (st := record_input t_input (req_message request) (state s)).
  assert (user_input st = req_message request
          /\ negotiation_phase st = negotiation_phase (state s)
          /\ brand_offer st = brand_offer (state s)
          /\ campaign_type st = campaign_type (state s)
          /\ duration st = duration (state s)
          /\ negotiation_rounds st = negotiation_rounds (state s)
          /\ influencer_offer st = influencer_offer (state s)
          /\ agreed_price st = agreed_price (state s))
    as (Hui & Hph & Hbo' & Hct' & Hdu' & Hrd & Hio & Hap)
    by (subst st; by destruct (state s)).
  destruct (undecided_branch t_step st bo)
    as (res & -> & Hph1 & Hrd1 & Hbo1 & Hio1 & Hap1 & Hic & Hopt);
    rewrite ?Hui, ?Hph, ?Hbo', ?Hct', ?Hdu'; try done.
  eexists. split; [reflexivity|].
  cbn [reply_is_complete reply_options reply_state].
  rewrite Hic, Hopt, Hph1, Hrd1, Hbo1, Hio1, Hap1, Hui, Hrd, Hio, Hap.
  by repeat split.
Qed.

(** The opening offer of 50000 answered with a question. *)
Lemma undecided_message_keeps_waiting_witness :
  exists r,
    (respond_to_negotiation "t1" "t2"
       {| req_session_id := "s1"; req_message := lit "What is it about?" |}
       (demo_open 50000)).2 = Reply r
    /\ reply_options r
       = [lit "Accept " ++ rupee :: lit "50,000"; lit "Make counter-offer";
          lit "Need more details"]
    /\ negotiation_phase (reply_state r) = "waiting_for_decision"
    /\ brand_offer (reply_state r) = Some 50000.
Proof.
  assert (exists s, demo_open 50000 !! "s1" = Some s
                    /\ negotiation_phase (state s) = "waiting_for_influencer_response"
                    /\ brand_offer (state s) = Some 50000
                    /\ campaign_type (state s) <> None
                    /\ duration (state s) <> None)
    as (s & Hs & Hph & Hbo & Hct & Hdu).
  { eexists. split; [vm_compute; reflexivity|]. by repeat split. }
  destruct (undecided_message_keeps_waiting "t1" "t2"
              {| req_session_id := "s1"; req_message := lit "What is it about?" |}
              (demo_open 50000) s 50000 Hs)
    as (r & Hr & _ & Hopt & Hph' & _ & Hbo' & _).
  - left. exact Hph.
  - vm_compute. reflexivity.
  - let l := eval vm_compute in (lit "What is it about?") in
    change (lit "What is it about?") with l.
    cbn [req_message].
    repeat (apply List.Forall_cons; [reflexivity|]). apply List.Forall_nil.
  - exact Hbo.
  - exact Hct.
  - exact Hdu.
  - exists r. split; [exact Hr|]. split; [|split; [exact Hph' | exact Hbo']].
    rewrite Hopt. vm_compute. reflexivity.
Defined.

(** X20: the option to accept that the brand offers is read as an
    acceptance, whatever amount its text shows: sent as the message of a
    waiting session it completes the negotiation at the current brand
    offer and leaves the counter-offer alone; the first option offered
    after an undecided message, sent back, completes at the brand offer,
    and the first option of the opening reply, sent back, completes at the
    budget. *)
Theorem offered_accept_option_completes {RT : PyRuntime} :
  (forall now st bo n,
     waiting (negotiation_phase st) ->
     brand_offer st = Some bo ->
     user_input st = accept_option n ->
     exists res,
       process_negotiation_step now st = Ok res
       /\ negotiation_phase (merge_result st res) = "completed"
       /\ agreed_price (merge_result st res) = Some bo
       /\ influencer_offer (merge_result st res) = influencer_offer st)
  /\ (forall now st bo,
        waiting (negotiation_phase st) ->
        says_accept (user_input st) = false ->
        Forall (fun c => is_digit c = false) (user_input st) ->
        brand_offer st = Some bo ->
        campaign_type st <> None ->
        duration st <> None ->
        exists res option others,
          process_negotiation_step now st = Ok res
          /\ get_options res = option :: others
          /\ forall t_input t_step,
              let st' := respond_state t_input t_step option (merge_result st res) in
              negotiation_phase st' = "completed" /\ agreed_price st' = Some bo)
  /\ (forall sid t_created t_last t_step t_entry request sessions,
        req_budget request <> 0 ->
        req_campaign_type request <> None ->
        req_duration request <> None ->
        exists r option others,
          (start_negotiation sid t_created t_last t_step t_entry request sessions).2
          = Reply r
          /\ reply_options r = option :: others
          /\ forall t_input t_step',
              let st' := respond_state t_input t_step' option (reply_state r) in
              negotiation_phase st' = "completed"
              /\ agreed_price st' = Some (req_budget request)).
Proof.
  assert (forall t_input t_step option st bo,
            says_accept option = true ->
            waiting (negotiation_phase st) ->
            brand_offer st = Some bo ->
            let st' := respond_state t_input t_step option st in
            negotiation_phase st' = "completed" /\ agreed_price st' = Some bo)
    as Hback.
  { intros t_input t_step option st bo Hacc Hp Hbo. unfold respond_state.
    destruct (accept_branch t_step (record_input t_input option st) bo)
      as (res & -> & Hph & Hap & _); [| | |done]; by destruct st. }
  split; [|split].
  - intros now st bo n Hp Hbo Hui.
    destruct (accept_branch now st bo Hp) as (res & ? & ? & ? & ? & _);
      [by rewrite Hui, says_accept_accept_option | done |].
    by exists res.
  - intros now st bo Hp Hacc Hnodigit Hbo Hct Hdu.
    destruct (undecided_branch now st bo Hp Hacc Hnodigit Hbo Hct Hdu)
      as (res & Hres & Hph & _ & Hbo' & _ & _ & _ & Hopt).
    exists res, (accept_option bo). eexists. split; [done|]. split; [exact Hopt|].
    intros t_input t_step. apply Hback.
    + apply says_accept_accept_option.
    + right. exact Hph.
    + exact Hbo'.
  - intros sid t_created t_last t_step t_entry request sessions Hb Hct Hdu.
    pose proof (start_negotiation_shape sid t_created t_last t_step t_entry
                  request sessions Hb Hct Hdu) as (r & Hr & Hopt & Hph & Hbo).
    exists r, (lit "Accept the offer"). eexists. split; [done|]. split; [exact Hopt|].
    intros t_input t_step'. apply Hback.
    + rewrite says_accept_plain; [reflexivity|]. apply forallb_plain. reflexivity.
    + left. exact Hph.
    + exact Hbo.
Qed.

(** Sending back "Accept (rupee sign)50,000" at brand offer 50000. *)
Lemma offered_accept_option_completes_witness :
  exists res,
    process_negotiation_step "t2"
      (demo_session "waiting_for_decision" (Some 50000) (Some 50000) (Some 0)
         (accept_option 50000))
    = Ok res
    /\ negotiation_phase
         (merge_result
            (demo_session "waiting_for_decision" (Some 50000) (Some 50000) (Some 0)
               (accept_option 50000)) res) = "completed"
    /\ agreed_price
         (merge_result
            (demo_session "waiting_for_decision" (Some 50000) (Some 50000) (Some 0)
               (accept_option 50000)) res) = Some 50000
    /\ influencer_offer
         (merge_result
            (demo_session "waiting_for_decision" (Some 50000) (Some 50000) (Some 0)
               (accept_option 50000)) res) = Some 0.
Proof.
  apply (proj1 offered_accept_option_completes "t2"
           (demo_session "waiting_for_decision" (Some 50000) (Some 50000) (Some 0)
              (accept_option 50000)) 50000 50000).
  - right. reflexivity.
  - reflexivity.
  - reflexivity.
Defined.
